(** * rdtools.availability: inverter availability and downtime loss

    A shallow embedding of [rdtools/availability.py] ([is_online],
    [downtime_loss], [profile_to_signal], [signal_to_profile]) together with
    the pandas/numpy operations those functions are written with.

    Numbers.  pandas stores power readings as floating point values in which
    NaN marks a missing reading and division by zero yields an infinity.
    Both are load-bearing in the source ([fillna], [replace(False, nan)],
    NaN-skipping reductions, [x / 0]), so the value type [num] keeps NaN and
    the two infinities.  Finite values are exact rationals: rounding and the
    sign of zero are not represented.  The properties proved are therefore
    about what rounding leaves alone: which branch is taken, comparisons and
    clips, [x / 1], [x - x] and [0 * x], and which values an entry is
    computed from, not the exact value of a sum or a quotient of several
    numbers.  Where rounding decides, [Binary64] evaluates the same
    operations on binary64 values.

    Tables.  All inputs of one call share one time axis, so a pandas Series
    over it is a list, aligned by position, and a DataFrame is a list of
    rows, each under its timestamp.  A per-inverter series ([low_limit],
    [relative_sizing], [inverter_shares]) is a list in the order of the
    columns.  [profile_to_signal] raises when the merge returns more rows
    than timestamps; it and [downtime_loss], which calls it, return an
    [option].  A profile is taken to have its column axis named [Month], the
    name [profile_to_signal] reads after [melt] (it raises a [KeyError]
    under any other name): the axis name is not part of [Profile]. *)

From Stdlib Require Import QArith Qcanon Qround Lqa ZArith List Bool Lia.
From Stdlib Require Import Sorted.
From Stdlib Require Import Floats Uint63.
From stdpp Require Import base option numbers list.

Local Open Scope Qc_scope.

(** ** Floating point values with exact finite arithmetic *)

Inductive num : Type :=
  | NaN
  | NInf
  | PInf
  | Fin (q : Qc).

Module Num.

Definition zero : num := Fin 0.
Definition one : num := Fin 1.

Definition of_Q (q : Q) : num := Fin (Q2Qc q).
Definition of_Z (z : Z) : num := Fin (Qc_of_Z z).
Definition of_nat (n : nat) : num := of_Z (Z.of_nat n).

(** [True] is 1 and [False] is 0 in arithmetic. *)
Definition of_bool (b : bool) : num := if b then one else zero.

Definition isnan (x : num) : bool :=
  match x with NaN => true | _ => false end.

Definition is_finite (x : num) : bool :=
  match x with Fin _ => true | _ => false end.

Definition neg (x : num) : num :=
  match x with
  | NaN => NaN
  | NInf => PInf
  | PInf => NInf
  | Fin q => Fin (- q)
  end.

Definition add (x y : num) : num :=
  match x, y with
  | NaN, _ | _, NaN => NaN
  | PInf, NInf | NInf, PInf => NaN
  | PInf, _ | _, PInf => PInf
  | NInf, _ | _, NInf => NInf
  | Fin a, Fin b => Fin (a + b)
  end.

Definition sub (x y : num) : num := add x (neg y).

(** An infinity of the sign of [q]; [0 * inf] is NaN. *)
Definition signed_inf (q : Qc) : num :=
  if bool_decide (0 < q) then PInf
  else if bool_decide (q < 0) then NInf
  else NaN.

Definition mul (x y : num) : num :=
  match x, y with
  | NaN, _ | _, NaN => NaN
  | Fin a, Fin b => Fin (a * b)
  | Fin a, PInf | PInf, Fin a => signed_inf a
  | Fin a, NInf | NInf, Fin a => signed_inf (- a)
  | PInf, PInf | NInf, NInf => PInf
  | PInf, NInf | NInf, PInf => NInf
  end.

(** Array division never raises: [x / 0] is an infinity of the sign of
    [x], and [0 / 0] is NaN. *)
Definition div (x y : num) : num :=
  match x, y with
  | NaN, _ | _, NaN => NaN
  | Fin a, Fin b =>
      if bool_decide (b = 0) then signed_inf a else Fin (a / b)
  | Fin _, (PInf | NInf) => zero
  | PInf, Fin b => if bool_decide (b < 0) then NInf else PInf
  | NInf, Fin b => if bool_decide (b < 0) then PInf else NInf
  | (PInf | NInf), (PInf | NInf) => NaN
  end.

(** Comparisons: every comparison with NaN is false. *)
Definition ltb (x y : num) : bool :=
  match x, y with
  | NaN, _ | _, NaN => false
  | _, NInf => false
  | NInf, _ => true
  | PInf, _ => false
  | _, PInf => true
  | Fin a, Fin b => bool_decide (a < b)
  end.

Definition leb (x y : num) : bool :=
  match x, y with
  | NaN, _ | _, NaN => false
  | NInf, _ => true
  | _, NInf => false
  | _, PInf => true
  | PInf, _ => false
  | Fin a, Fin b => bool_decide (a ≤ b)
  end.

Definition gtb (x y : num) : bool := ltb y x.
Definition geb (x y : num) : bool := leb y x.

Definition eqb (x y : num) : bool :=
  match x, y with
  | NInf, NInf | PInf, PInf => true
  | Fin a, Fin b => bool_decide (a = b)
  | _, _ => false
  end.

(** The integer part of a position, for [quantile]. *)
Definition floor_nat (q : Qc) : nat := Z.to_nat (Qfloor q).

End Num.

Declare Scope num_scope.
Delimit Scope num_scope with num.
Bind Scope num_scope with num.
Infix "+" := Num.add : num_scope.
Infix "-" := Num.sub : num_scope.
Infix "*" := Num.mul : num_scope.
Infix "/" := Num.div : num_scope.
Infix "<?" := Num.ltb : num_scope.
Infix "<=?" := Num.leb : num_scope.
Infix ">?" := Num.gtb (at level 70) : num_scope.
Infix ">=?" := Num.geb (at level 70) : num_scope.
Infix "=?" := Num.eqb : num_scope.
Notation "0" := Num.zero : num_scope.
Notation "1" := Num.one : num_scope.

Global Instance num_eq_dec : EqDecision num.
Proof. solve_decision. Defined.

(** A series of numbers, the values of a frame row by row, and a boolean
    frame. *)
Abbreviation Series := (list num).
Abbreviation Frame := (list (list num)).
Abbreviation Mask := (list (list bool)).

(** ** pandas and numpy operations *)

Module Pandas.

Local Open Scope num_scope.

(** [s.fillna(v)] *)
Definition fillna (v : num) (s : Series) : Series :=
  map (fun x => if Num.isnan x then v else x) s.

Definition dropna (s : list num) : list num :=
  filter (fun x => Num.isnan x = false) s.

(** A scalar bound that is NaN is no bound. *)
Definition bound (b : option num) : option num :=
  match b with
  | Some x => if Num.isnan x then None else Some x
  | None => None
  end.

(** Python's [min(a, b)] and [max(a, b)] on two scalars: the first
    argument unless the second is strictly smaller (larger). *)
Definition py_min (a b : num) : num := if b <? a then b else a.
Definition py_max (a b : num) : num := if b >? a then b else a.

(** [s.clip(lower=, upper=)] on one value: two scalar bounds are put in
    order before use, and a missing value stays missing. *)
Definition clip (lower upper : option num) (x : num) : num :=
  let '(lower, upper) :=
    match bound lower, bound upper with
    | Some l, Some u => (Some (py_min l u), Some (py_max l u))
    | l, u => (l, u)
    end in
  if Num.isnan x then x else
  let x := match lower with
           | Some l => if x >=? l then x else l
           | None => x
           end in
  match upper with
  | Some u => if x <=? u then x else u
  | None => x
  end.

(** [sum] with [skipna=True]: nothing to add gives 0. *)
Definition nansum (s : list num) : num :=
  foldr Num.add 0 (dropna s).

(** [mean] with [skipna=True]: nothing to average gives NaN. *)
Definition nanmean (s : list num) : num :=
  match dropna s with
  | [] => NaN
  | l => foldr Num.add 0 l / Num.of_nat (length l)
  end.

Fixpoint insert_sorted (x : num) (l : list num) : list num :=
  match l with
  | [] => [x]
  | y :: l' => if x <=? y then x :: l else y :: insert_sorted x l'
  end.

Definition sort (l : list num) : list num := foldr insert_sorted [] l.

(** [median] with [skipna=True]: the middle value, or the mean of the two
    middle values. *)
Definition nanmedian (s : list num) : num :=
  let l := sort (dropna s) in
  let n := length l in
  if bool_decide (n = 0%nat) then NaN
  else if Nat.even n
       then (nth (n / 2 - 1) l NaN + nth (n / 2) l NaN) / Num.of_nat 2
       else nth (n / 2) l NaN.

(** [min] with [skipna=True]. *)
Definition nanmin (s : list num) : num :=
  match dropna s with
  | [] => NaN
  | x :: l => foldr (fun y m => if y <? m then y else m) x l
  end.

(** [quantile(q)] with linear interpolation between the two neighbours
    of position [q * (n - 1)] in the sorted values. *)
Definition quantile (q : Qc) (s : list num) : num :=
  let l := sort (dropna s) in
  let n := length l in
  if bool_decide (n = 0%nat) then NaN
  else
    let pos := (q * Qc_of_Z (Z.of_nat (n - 1)))%Qc in
    let lo := Num.floor_nat pos in
    let hi := Nat.min (S lo) (n - 1) in
    let gamma := (pos - Qc_of_Z (Z.of_nat lo))%Qc in
    let a := nth lo l NaN in
    let b := nth hi l NaN in
    a + (b - a) * Fin gamma.

End Pandas.

(** ** Frames: the values of a DataFrame, row by row *)

Module Frames.

Import Pandas.
Local Open Scope num_scope.

Definition frame_fillna (v : num) (f : Frame) : Frame := map (fillna v) f.

(** Column [j], top to bottom; a cell that is not there is missing. *)
Definition column (j : nat) (f : Frame) : list num :=
  map (fun row => nth j row NaN) f.

(** A reduction down every column ([axis=0], the default). *)
Definition reduce_columns (g : list num -> num) (n : nat) (f : Frame)
  : list num :=
  map (fun j => g (column j f)) (seq 0 n).

(** [f[m]]: the cells where the mask holds, NaN elsewhere. *)
Definition where_ (f : Frame) (m : Mask) : Frame :=
  zip_with (zip_with (fun x (b : bool) => if b then x else NaN)) f m.

(** [f.divide(s, axis=0)]: row [t] is divided by [s[t]]. *)
Definition div_axis0 (f : Frame) (s : Series) : Frame :=
  zip_with (fun row d => map (fun x => x / d) row) f s.

(** [f.divide(s, axis=1)]: column [j] is divided by [s[j]]. *)
Definition div_axis1 (f : Frame) (s : list num) : Frame :=
  map (fun row => zip_with Num.div row s) f.

(** [f.multiply(s)]: column [j] is multiplied by [s[j]]. *)
Definition mul_axis1 (f : Frame) (s : list num) : Frame :=
  map (fun row => zip_with Num.mul row s) f.

(** [m.replace(False, nan)] on a boolean frame: [True] stays (it is 1 in
    the product that follows), [False] becomes missing. *)
Definition replace_false_nan (m : Mask) : Frame :=
  map (map (fun b : bool => if b then 1 else NaN)) m.

(** A boolean frame as numbers, for [mask.multiply(...)]. *)
Definition mask_values (m : Mask) : Frame := map (map Num.of_bool) m.

(** [m.all(axis=1)] *)
Definition all_axis1 (m : Mask) : list bool := map (forallb id) m.

Definition zip_with3 {A B C D} (f : A -> B -> C -> D)
    (l1 : list A) (l2 : list B) (l3 : list C) : list D :=
  zip_with (fun ab c => f ab.1 ab.2 c) (zip l1 l2) l3.

(** [s[mask] = v] with [v] a scalar. *)
Definition setitem_scalar {A} (s : list A) (mask : list bool) (v : A)
  : list A :=
  zip_with (fun x (b : bool) => if b then v else x) s mask.

(** [s[mask] = v] with [v] a series or an array as long as [s]: position
    [t] takes [v[t]] where the mask holds. *)
Definition setitem_where {A} (s : list A) (mask : list bool) (v : list A)
  : list A :=
  zip_with3 (fun x (b : bool) y => if b then y else x) s mask v.

End Frames.

(** ** The time axis *)

Record Timestamp : Type := mkTimestamp {
  year : Z;
  month : Z;
  day : Z;
  hour : Z;
  minute : Z;
  second : Z
}.

(** A DataFrame over the time axis: its number of columns and its rows, each
    under its timestamp. *)
Record DataFrame : Type := mkDataFrame {
  columns : nat;
  rows : list (Timestamp * list num)
}.

Definition index (df : DataFrame) : list Timestamp := map fst (rows df).
Definition values (df : DataFrame) : Frame := map snd (rows df).

(** [low_limit] is a float, used for all inverters, or a series with one
    entry per inverter, in the order of the columns (the source requires its
    index to match the column names). *)
Inductive LowLimit : Type :=
  | LimitFloat (x : num)
  | LimitSeries (s : list num).

(** The 12x24 table of typical production: the month labels of its columns
    and its rows, each under its hour label. *)
Record Profile : Type := mkProfile {
  profile_months : list Z;
  profile_rows : list (Z * list num)
}.

(** ** availability.py *)

Module Availability.

Import Pandas Frames.
Local Open Scope num_scope.

(** One row of [frame OP low_limit]: a float is compared with every cell,
    a series column by column. *)
Definition compare_row (op : num -> num -> bool) (row : list num)
    (l : LowLimit) : list bool :=
  match l with
  | LimitFloat x => map (fun v => op v x) row
  | LimitSeries s => zip_with op row s
  end.

(** [frame OP low_limit] *)
Definition compare_limit (op : num -> num -> bool) (f : Frame)
    (l : LowLimit) : Mask :=
  map (fun row => compare_row op row l) f.

(** [np.sum(low_limit)]: the sum of a series; a float is its own sum. *)
Definition np_sum (l : LowLimit) : num :=
  match l with
  | LimitFloat x => x
  | LimitSeries s => nansum s
  end.

(** [0.01 * inverters.quantile(0.99)] *)
Definition default_low_limit (n_inv : nat) (inverters : Frame) : LowLimit :=
  LimitSeries
    (map (Num.mul (Num.of_Q (1 # 100)))
         (reduce_columns (quantile (Q2Qc (99 # 100))) n_inv inverters)).

(** [if low_limit is None: low_limit = ...] *)
Definition resolve_low_limit (n_inv : nat) (inverters : Frame)
    (low_limit : option LowLimit) : LowLimit :=
  match low_limit with
  | None => default_low_limit n_inv inverters
  | Some l => l
  end.

(** The body of [is_online] after its first lines: [inverters] and [meter]
    are zero-filled and [low_limit] is resolved.  Each definition is one
    assignment of the source, under the name of the variable assigned;
    [mean_inverter_power] is assigned three times and gets three names. *)
Section IsOnline.

Variable n_inv : nat.
Variable inverters : Frame.
Variable meter : Series.
Variable low_limit : LowLimit.

(** [inverters[inverters > low_limit]] *)
Definition reporting : Frame :=
  where_ inverters (compare_limit Num.gtb inverters low_limit).

Definition mean_reporting_power : Series := map nanmean reporting.

Definition relative_sizing : list num :=
  reduce_columns nanmedian n_inv (div_axis0 reporting mean_reporting_power).

Definition mean_sized_power : Series :=
  map nanmean (div_axis1 reporting relative_sizing).

Definition all_inverters_appear_offline : list bool :=
  all_axis1 (compare_limit Num.ltb inverters low_limit).

(** [mean_inverter_power[all_inverters_appear_offline] = meter / n_inv] *)
Definition mean_inverter_power : Series :=
  setitem_where mean_sized_power all_inverters_appear_offline
    (map (fun m => m / Num.of_nat n_inv) meter).

Definition meter_appears_offline : list bool :=
  map (fun m => m <? np_sum low_limit) meter.

Definition site_offline : list bool :=
  zip_with andb all_inverters_appear_offline meter_appears_offline.

Definition meter_delta : Series :=
  zip_with (fun m p => 1 - m / (Num.of_nat n_inv * p))
    meter mean_inverter_power.

Definition inverter_fraction : list num :=
  map (fun r => r / nansum relative_sizing) relative_sizing.

Definition smallest_delta : Series :=
  fillna 1
    (map nanmin
       (mul_axis1
          (replace_false_nan (compare_limit Num.leb inverters low_limit))
          inverter_fraction)).

Definition meter_appears_low : list bool :=
  zip_with (fun d s => d >? Num.of_Q (3 # 4) * s)
    meter_delta smallest_delta.

Definition inverters_appear_offline : list bool :=
  map negb (all_axis1 (compare_limit Num.gtb inverters low_limit)).

Definition inverters_offline : list bool :=
  zip_with andb inverters_appear_offline meter_appears_low.

(** The mask over the time axis [times]: all [True], then the rows of
    [inverters_offline] take [inverters.gt(low_limit)], then the rows of
    [site_offline] are all [False]. *)
Definition online_mask (times : list Timestamp) : Mask :=
  let mask := map (fun _ => replicate n_inv true) times in
  let mask :=
    zip_with3 (fun row (b : bool) gt => if b then gt else row)
      mask inverters_offline
      (compare_limit Num.gtb inverters low_limit) in
  zip_with (fun row (b : bool) => if b then map (fun _ => false) row else row)
    mask site_offline.

End IsOnline.

Definition is_online (inverters : DataFrame) (meter : Series)
    (low_limit : option LowLimit) : Mask :=
  let times := index inverters in
  let n_inv := columns inverters in
  let inverters := frame_fillna 0 (values inverters) in
  let meter := fillna 0 meter in
  let low_limit := resolve_low_limit n_inv inverters low_limit in
  online_mask n_inv inverters meter low_limit times.


(** *** profile_to_signal *)

(** [profile.melt(id_vars=['Hour'], value_vars=months)] after
    [profile['Hour'] = profile.index]: one (Hour, Month, value) row per
    cell, month column after month column. *)
Definition melt (profile : Profile) : list (Z * Z * num) :=
  flat_map
    (fun jm : nat * Z =>
       map (fun r : Z * list num => (r.1, jm.2, nth jm.1 r.2 NaN))
           (profile_rows profile))
    (imap (fun j m => (j, m)) (profile_months profile)).

(** [pd.merge(aux, profile, on=['Month', 'Hour'], how='left')['value']]:
    every row of [aux], in order, with the value of each profile row of the
    same key, or with a missing value when there is none. *)
Definition merge_left (aux : list (Z * Z)) (table : list (Z * Z * num))
  : list num :=
  flat_map
    (fun k : Z * Z =>
       match filter (fun r : Z * Z * num => r.1 = k) table with
       | [] => [NaN]
       | matches => map snd matches
       end)
    aux.

(** [signal.index = times] raises when the merge did not return one row
    per timestamp. *)
Definition profile_to_signal (profile : Profile) (times : list Timestamp)
  : option Series :=
  let aux := map (fun t => (hour t, month t)) times in
  let signal := merge_left aux (melt profile) in
  if bool_decide (length signal = length times) then Some signal else None.

(** *** signal_to_profile *)

Fixpoint insert_label (x : Z) (l : list Z) : list Z :=
  match l with
  | [] => [x]
  | y :: l' =>
      if bool_decide (x < y)%Z then x :: l
      else if bool_decide (x = y) then l
      else y :: insert_label x l'
  end.

(** The distinct labels, in increasing order. *)
Definition sorted_labels (l : list Z) : list Z := foldr insert_label [] l.

(** The mean of the values of one (Hour, Month) group. *)
Definition group_mean (signal : list (Timestamp * num)) (h m : Z) : num :=
  nanmean
    (map snd
       (filter (fun e : Timestamp * num => hour e.1 = h ∧ month e.1 = m)
               signal)).

(** [aux.pivot_table(values='value', index='Hour', columns='Month')]: the
    mean of every (Hour, Month) group; groups without a mean are dropped,
    and the labels that remain are sorted. *)
Definition signal_to_profile (signal : list (Timestamp * num)) : Profile :=
  let groups :=
    filter (fun k : Z * Z => Num.isnan (group_mean signal k.1 k.2) = false)
           (map (fun e : Timestamp * num => (hour e.1, month e.1)) signal) in
  let hours := sorted_labels (map fst groups) in
  let months := sorted_labels (map snd groups) in
  {| profile_months := months;
     profile_rows :=
       map (fun h => (h, map (fun m => group_mean signal h m) months))
           hours |}.

(** *** downtime_loss *)

(** [if system_limit:] *)
Definition truthy (system_limit : option num) : bool :=
  match system_limit with
  | None => false
  | Some x => negb (x =? 0)
  end.

(** The body of [downtime_loss] between its zero-filling first lines and
    the system limit, with [typical_power] the result of
    [profile_to_signal]. *)
Section DowntimeLoss.

Variable n_inv : nat.
Variable inverters : Frame.
Variable meter : Series.
Variable online_mask : Mask.
Variable expected_power : Series.
Variable typical_power : Series.
Variable is_daylight : list bool.

Definition inverter_shares : list num :=
  let shares :=
    reduce_columns nanmedian n_inv
      (div_axis0 (where_ inverters online_mask) meter) in
  map (fun s => s / nansum shares) shares.

(** [online_mask.multiply(inverter_shares, axis=1).sum(axis=1)] *)
Definition online_fraction_uncorrected : Series :=
  map nansum (mul_axis1 (mask_values online_mask) inverter_shares).

Definition inv_sum : Series := map nansum inverters.

Definition communications_factor : Series :=
  setitem_scalar
    (map (clip (Some 1) None) (zip_with Num.div meter inv_sum))
    (map (fun f => f =? 0) online_fraction_uncorrected)
    1.

Definition online_fraction : Series :=
  map (clip None (Some 1))
      (zip_with Num.mul online_fraction_uncorrected communications_factor).

Definition estimated_full_power : Series :=
  zip_with Num.div meter online_fraction.

Definition replacement_power : Series :=
  zip_with (fun e t => if e >? 0 then e else t)
    expected_power typical_power.

(** [lost_power] as it stands before the system limit. *)
Definition lost_power : Series :=
  let lost_power := zip_with Num.sub estimated_full_power meter in
  let lost_power := map (clip (Some 0) None) lost_power in
  let lost_power := setitem_scalar lost_power (map negb is_daylight) 0 in
  setitem_where lost_power
    (zip_with andb (map (fun f => f =? 0) online_fraction) is_daylight)
    replacement_power.

End DowntimeLoss.

(** The last block of [downtime_loss], run when [system_limit] is truthy. *)
Definition limit_total_power (system_limit : num) (meter lost_power : Series)
  : Series :=
  let total_power := zip_with Num.add meter lost_power in
  let total_power_clipped := map (clip None (Some system_limit)) total_power in
  let lost_power := zip_with Num.sub total_power_clipped meter in
  map (clip (Some 0) (Some system_limit)) lost_power.

Definition downtime_loss (inverters : DataFrame) (meter : Series)
    (online_mask : Mask) (expected_power : Series)
    (production_profile : Profile) (is_daylight : list bool)
    (system_limit : option num) : option Series :=
  let times := index inverters in
  let n_inv := columns inverters in
  let inverters := frame_fillna 0 (values inverters) in
  let meter := fillna 0 meter in
  let expected_power := fillna 0 expected_power in
  typical_power ← profile_to_signal production_profile times;
  let lost_power :=
    lost_power n_inv inverters meter online_mask expected_power
      typical_power is_daylight in
  let lost_power :=
    match system_limit with
    | Some limit =>
        if truthy system_limit
        then limit_total_power limit meter lost_power
        else lost_power
    | None => lost_power
    end in
  Some lost_power.

End Availability.

(** * Vocabulary of the specification *)

Module Spec.

Import Pandas Frames Availability.
Local Open Scope num_scope.

(** The position of the first label equal to [x]. *)
Fixpoint index_of (x : Z) (l : list Z) : option nat :=
  match l with
  | [] => None
  | y :: l' => if bool_decide (y = x) then Some 0%nat else S <$> index_of x l'
  end.

(** The first row labelled [h]. *)
Fixpoint row_of (h : Z) (rows : list (Z * list num)) : option (list num) :=
  match rows with
  | [] => None
  | r :: rows' => if bool_decide (r.1 = h) then Some r.2 else row_of h rows'
  end.

(** [profile.loc[h, m]] when the profile has hour [h] and month [m]. *)
Definition profile_at (p : Profile) (h m : Z) : option num :=
  j ← index_of m (profile_months p);
  row ← row_of h (profile_rows p);
  Some (nth j row NaN).

(** The same, with a missing value for a combination that is absent. *)
Definition profile_get (p : Profile) (h m : Z) : num :=
  default NaN (profile_at p h m).

(** A profile whose hour labels, and whose month labels, are distinct. *)
Definition profile_wf (p : Profile) : Prop :=
  NoDup (profile_months p) /\ NoDup (map fst (profile_rows p)).

(** The larger and the smaller of two numbers; missing when either is. *)
Definition num_max (a b : num) : num :=
  if Num.isnan a || Num.isnan b then NaN
  else if a <=? b then b else a.

Definition num_min (a b : num) : num :=
  if Num.isnan a || Num.isnan b then NaN
  else if a <=? b then a else b.

(** Lost power at one timestamp before the system limit, from the meter
    reading [m], the corrected online fraction [f], the expected power
    [e], the typical power [y] and the daylight flag [d]. *)
Definition lost_before_limit (m f e y : num) (d : bool) : num :=
  if (f =? 0) && d then (if e >? 0 then e else y)
  else if d then clip (Some 0) None (m / f - m)
  else 0.

(** Every reading of a row stands in relation [op] to its threshold. *)
Definition readings (op : num -> num -> bool) (l : LowLimit)
    (row : list num) : Prop :=
  match l with
  | LimitFloat x => Forall (fun v => op v x = true) row
  | LimitSeries s => Forall2 (fun v x => op v x = true) row s
  end.

(** The sum of the thresholds of all [n_inv] inverters. *)
Definition sum_of_thresholds (n_inv : nat) (l : LowLimit) : num :=
  match l with
  | LimitFloat x => nansum (replicate n_inv x)
  | LimitSeries s => nansum s
  end.

(** The relative-sizing fractions of the inverters of a row that appear
    offline (reading at or below threshold). *)
Definition offline_fractions (l : LowLimit) (row fractions : list num)
  : list num :=
  map snd
    (filter (fun bf : bool * num => bf.1 = true)
            (zip (compare_row Num.leb row l) fractions)).

(** C3 as stated: the smallest fraction among the inverters that appear
    offline, or 1 when no inverter appears offline. *)
Definition smallest_delta_stated (l : LowLimit) (row fractions : list num)
  : num :=
  match offline_fractions l row fractions with
  | [] => 1
  | fs => nanmin fs
  end.

(** C3 as the code has it: the smallest fraction that is defined among the
    inverters that appear offline, or 1 when there is none. *)
Definition smallest_delta_defined (l : LowLimit) (row fractions : list num)
  : num :=
  match dropna (offline_fractions l row fractions) with
  | [] => 1
  | _ => nanmin (offline_fractions l row fractions)
  end.

(** C3 as stated, at timestamp [t]: the meter corroborates offline
    inverters exactly when [meter_delta > 0.75 * smallest_delta]. *)
Definition meter_appears_low_stated (n_inv : nat) (inverters : Frame)
    (meter : Series) (l : LowLimit) (t : nat) : option bool :=
  row ← inverters !! t;
  m ← meter !! t;
  p ← mean_inverter_power n_inv inverters meter l !! t;
  Some (1 - m / (Num.of_nat n_inv * p)
        >? Num.of_Q (3 # 4)
           * smallest_delta_stated l row (inverter_fraction n_inv inverters l)).

(** The number of timestamps of a time axis in hour [h] of month [m]. *)
Definition hits (times : list Timestamp) (h m : Z) : nat :=
  length (filter (fun ts => hour ts = h ∧ month ts = m) times).

(** One value after [fillna(1)]. *)
Definition fill1 (x : num) : num := if Num.isnan x then 1 else x.

(** A reading after [fillna(0)]. *)
Definition fill0 (x : num) : num := if Num.isnan x then 0 else x.

(** The system limit at one timestamp. *)
Definition limit_step (limit m lost : num) : num :=
  clip (Some 0) (Some limit) (clip None (Some limit) (m + lost) - m).

(** Lost power at one timestamp after the last block of [downtime_loss]. *)
Definition with_limit (system_limit : option num) (m lost : num) : num :=
  match system_limit with
  | Some limit => if truthy system_limit then limit_step limit m lost else lost
  | None => lost
  end.

End Spec.

(** * Binary64

    The mean of a group and the last block of [downtime_loss] at one
    timestamp, written as in [Pandas] and [Spec] over binary64 values, to
    evaluate what rounding does to them. *)

Module Binary64.

Local Open Scope float_scope.

Definition isnan (x : float) : bool := negb (x =? x).

Definition of_nat (n : nat) : float := of_uint63 (Uint63.of_Z (Z.of_nat n)).

Definition dropna (s : list float) : list float :=
  filter (fun x => isnan x = false) s.

(** [mean] with [skipna=True]. *)
Definition nanmean (s : list float) : float :=
  match dropna s with
  | [] => nan
  | l => foldr PrimFloat.add 0 l / of_nat (length l)
  end.

Definition bound (b : option float) : option float :=
  match b with
  | Some x => if isnan x then None else Some x
  | None => None
  end.

Definition py_min (a b : float) : float := if b <? a then b else a.
Definition py_max (a b : float) : float := if a <? b then b else a.

(** [s.clip(lower=, upper=)] on one value. *)
Definition clip (lower upper : option float) (x : float) : float :=
  let '(lower, upper) :=
    match bound lower, bound upper with
    | Some l, Some u => (Some (py_min l u), Some (py_max l u))
    | l, u => (l, u)
    end in
  if isnan x then x else
  let x := match lower with
           | Some l => if l <=? x then x else l
           | None => x
           end in
  match upper with
  | Some u => if x <=? u then x else u
  | None => x
  end.

(** The system limit at one timestamp:
    [(meter + lost_power).clip(upper=system_limit) - meter], then
    [clip(lower=0, upper=system_limit)]. *)
Definition limit_step (limit m lost : float) : float :=
  clip (Some 0) (Some limit) (clip None (Some limit) (m + lost) - m).

End Binary64.

(** * Conditions on the inputs *)

Module Conditions.
Import Pandas Frames Availability Spec.
Local Open Scope num_scope.

(** The threshold of inverter [j]. *)
Definition threshold (l : LowLimit) (j : nat) : option num :=
  match l with
  | LimitFloat x => Some x
  | LimitSeries s => s !! j
  end.

(** A number that is missing or finite and positive. *)
Definition pos_or_nan (x : num) : bool :=
  match x with
  | NaN => true
  | Fin q => bool_decide (0 < q)%Qc
  | _ => false
  end.

(** No threshold is negative (a missing threshold counts as not negative). *)
Definition no_negative_threshold (l : LowLimit) : Prop :=
  match l with
  | LimitFloat x => (x <? 0) = false
  | LimitSeries s => Forall (fun x => (x <? 0) = false) s
  end.

(** No reading of the frame is infinite. *)
Definition finite_readings (f : Frame) : Prop :=
  Forall (Forall (fun x => Num.is_finite x = true)) f.

(** No reading of the inverter data is infinite (a missing one is read as
    0). *)
Definition no_infinite_reading (inverters : DataFrame) : Prop :=
  Forall (fun r : Timestamp * list num =>
            Forall (fun x => Num.is_finite (fill0 x) = true) r.2)
    (rows inverters).

(** A number that is missing or finite and not negative. *)
Definition nonneg_or_nan (x : num) : bool :=
  match x with
  | NaN => true
  | Fin q => bool_decide (0 ≤ q)%Qc
  | _ => false
  end.

(** The cells of the melted profile that a timestamp matches. *)
Definition matching_cells (profile : Profile) (ts : Timestamp)
  : list (Z * Z * num) :=
  filter (fun r : Z * Z * num => r.1 = (hour ts, month ts)) (melt profile).

End Conditions.

(** * Sample plants *)

Module Examples.

Import Pandas Frames Availability Spec.

(** A power reading of [z] kilowatts. *)
Definition kw (z : Z) : num := Num.of_Z z.

(** Noon and one o'clock on the first of June. *)
Definition noon : Timestamp := mkTimestamp 2020 6 1 12 0 0.
Definition one_pm : Timestamp := mkTimestamp 2020 6 1 13 0 0.

Definition profile : Profile :=
  mkProfile [6; 7]%Z
    [(12%Z, [kw 250; kw 260]); (13%Z, [kw 240; kw 245])].

(** The same profile with a negative entry for June at noon. *)
Definition profile_negative : Profile :=
  mkProfile [6; 7]%Z
    [(12%Z, [kw (-1); kw 260]); (13%Z, [kw 240; kw 245])].

(** Three equal inverters: all producing at noon, the first one down at
    one o'clock. *)
Definition plant : DataFrame :=
  mkDataFrame 3
    [(noon, [kw 100; kw 100; kw 100]); (one_pm, [kw 0; kw 100; kw 100])].
Definition plant_meter : Series := [kw 300; kw 200].

(** Its mask, with 10 as the threshold of every inverter. *)
Definition plant_mask : Mask :=
  is_online plant plant_meter (Some (LimitFloat (kw 10))).

(** Three inverters that all report 0. *)
Definition silent : DataFrame := mkDataFrame 3 [(noon, [kw 0; kw 0; kw 0])].

(** Three inverters, the first of which never reports above threshold. *)
Definition one_down : DataFrame :=
  mkDataFrame 3 [(one_pm, [kw 0; kw 100; kw 100])].

(** Noon on the second and the third of June. *)
Definition noon_2 : Timestamp := mkTimestamp 2020 6 2 12 0 0.
Definition noon_3 : Timestamp := mkTimestamp 2020 6 3 12 0 0.

(** A profile of one entry, a tenth of a kilowatt for June at noon. *)
Definition tenth : num := Num.of_Q (1 # 10).
Definition profile_tenth : Profile := mkProfile [6]%Z [(12%Z, [tenth])].

(** A profile that has the hour of noon twice. *)
Definition profile_repeated : Profile :=
  mkProfile [6]%Z [(12%Z, [kw 250]); (12%Z, [kw 260])].

(** One inverter. *)
Definition single : DataFrame := mkDataFrame 1 [(noon, [kw 100])].
Definition single_idle : DataFrame := mkDataFrame 1 [(noon, [kw 0])].
Definition single_day : DataFrame :=
  mkDataFrame 1 [(noon, [kw 100]); (one_pm, [kw 0])].

End Examples.

(** * Properties *)

Import Pandas Frames Availability Spec.
Local Open Scope num_scope.

(** ** Positions in series *)

Section Lookups.

Context {A B C D : Type}.

Lemma lookup_zip_with3 (f : A -> B -> C -> D) l1 l2 l3 (i : nat) x y z :
  l1 !! i = Some x -> l2 !! i = Some y -> l3 !! i = Some z ->
  zip_with3 f l1 l2 l3 !! i = Some (f x y z).
Proof.
  intros H1 H2 H3. unfold zip_with3.
  rewrite lookup_zip_with, lookup_zip_with, H1, H2, H3. reflexivity.
Qed.

End Lookups.

Lemma lookup_setitem_scalar {A} (s : list A) mask v (i : nat) x (b : bool) :
  s !! i = Some x -> mask !! i = Some b ->
  setitem_scalar s mask v !! i = Some (if b then v else x).
Proof.
  intros Hs Hm. unfold setitem_scalar.
  rewrite lookup_zip_with, Hs, Hm. reflexivity.
Qed.

Lemma lookup_setitem_where {A} (s : list A) mask v (i : nat) x (b : bool) y :
  s !! i = Some x -> mask !! i = Some b -> v !! i = Some y ->
  setitem_where s mask v !! i = Some (if b then y else x).
Proof.
  intros Hs Hm Hv. unfold setitem_where.
  by rewrite (lookup_zip_with3 _ _ _ _ _ _ _ _ Hs Hm Hv).
Qed.

Lemma lookup_map {A B} (f : A -> B) (l : list A) (i : nat) :
  map f l !! i = f <$> l !! i.
Proof. change (map f l) with (f <$> l). apply list_lookup_fmap. Qed.

Lemma lookup_fillna v (s : Series) (i : nat) x :
  s !! i = Some x -> fillna v s !! i = Some (if Num.isnan x then v else x).
Proof. intros H. unfold fillna. by rewrite lookup_map, H. Qed.

Lemma lookup_compare_limit op f l (i : nat) row :
  f !! i = Some row ->
  compare_limit op f l !! i = Some (compare_row op row l).
Proof. intros H. unfold compare_limit. by rewrite lookup_map, H. Qed.

(** ** profile_to_signal is a keyed lookup *)

Section MeltLookup.

Variables h m : Z.

Let key_is (r : Z * Z * num) : Prop := r.1 = (h, m).

Lemma filter_rows_absent (rows : list (Z * list num)) (j : nat) (m' : Z) :
  h ∉ map fst rows ->
  filter key_is (map (fun r => (r.1, m', nth j r.2 NaN)) rows) = [].
Proof.
  induction rows as [|r rows IH]; intros Hnot; [done|].
  cbn [map] in *. rewrite filter_cons_False.
  - apply IH. intros Hin. apply Hnot. by right.
  - unfold key_is; cbn. intros [= Hr _]. apply Hnot. rewrite Hr. by left.
Qed.

Lemma filter_rows_other_month (rows : list (Z * list num)) (j : nat) m' :
  m' ≠ m ->
  filter key_is (map (fun r => (r.1, m', nth j r.2 NaN)) rows) = [].
Proof.
  intros Hm. induction rows as [|r rows IH]; [done|].
  cbn [map]. rewrite filter_cons_False; [done|].
  unfold key_is; cbn. by intros [= _ ?].
Qed.

Lemma filter_rows_month (rows : list (Z * list num)) (j : nat) :
  NoDup (map fst rows) ->
  filter key_is (map (fun r => (r.1, m, nth j r.2 NaN)) rows) =
    match row_of h rows with
    | Some row => [(h, m, nth j row NaN)]
    | None => []
    end.
Proof.
  induction rows as [|r rows IH]; intros Hnd; [done|].
  cbn [map row_of] in *. apply NoDup_cons in Hnd as [Hnot Hnd].
  case_bool_decide as Hr.
  - rewrite filter_cons_True by (unfold key_is; cbn; by rewrite Hr).
    rewrite filter_rows_absent by (by rewrite <- Hr). by rewrite Hr.
  - rewrite filter_cons_False by (unfold key_is; cbn; by intros [= ?]).
    by apply IH.
Qed.

Lemma filter_melt_from (rows : list (Z * list num)) (months : list Z)
    (g : nat -> nat) :
  NoDup months -> NoDup (map fst rows) ->
  filter key_is
    (flat_map
       (fun jm : nat * Z => map (fun r => (r.1, jm.2, nth jm.1 r.2 NaN)) rows)
       (imap (fun j m' => (g j, m')) months)) =
    match index_of m months, row_of h rows with
    | Some j, Some row => [(h, m, nth (g j) row NaN)]
    | _, _ => []
    end.
Proof.
  intros Hm Hr. revert g.
  induction months as [|m' months IH]; intros g; [done|].
  apply NoDup_cons in Hm as [Hnot Hm].
  rewrite imap_cons. cbn [flat_map index_of fst snd].
  rewrite filter_app.
  change (imap ((fun j m'0 => (g j, m'0)) ∘ S) months)
    with (imap (fun j m'0 => ((g ∘ S) j, m'0)) months).
  rewrite (IH Hm (g ∘ S)).
  case_bool_decide as Hmm.
  - subst m'. rewrite filter_rows_month by done.
    assert (index_of m months = None) as ->.
    { clear -Hnot. induction months as [|y months IH]; [done|].
      cbn. case_bool_decide; [subst; exfalso; apply Hnot; by left|].
      rewrite IH; [done|]. intros ?. apply Hnot. by right. }
    cbn. destruct (row_of h rows); by rewrite ?app_nil_r.
  - rewrite filter_rows_other_month by done. cbn.
    by destruct (index_of m months).
Qed.

End MeltLookup.

Lemma filter_melt (p : Profile) (h m : Z) :
  profile_wf p ->
  filter (fun r : Z * Z * num => r.1 = (h, m)) (melt p) =
    match profile_at p h m with
    | Some v => [(h, m, v)]
    | None => []
    end.
Proof.
  intros [Hm Hr]. unfold profile_at.
  etransitivity;
    [exact (filter_melt_from h m (profile_rows p) (profile_months p) id Hm Hr)|].
  destruct (index_of m (profile_months p)); [|done].
  by destruct (row_of h (profile_rows p)).
Qed.

Lemma merge_left_melt (p : Profile) (aux : list (Z * Z)) :
  profile_wf p ->
  merge_left aux (melt p) = map (fun k => profile_get p k.1 k.2) aux.
Proof.
  intros Hwf. unfold merge_left.
  induction aux as [|[h m] aux IH]; [done|].
  cbn [flat_map]. rewrite IH, (filter_melt p h m Hwf).
  unfold profile_get. destruct (profile_at p h m) eqn:E; cbn; by rewrite E.
Qed.

(** With distinct labels the merge returns one row per timestamp, so
    [profile_to_signal] returns, and what it returns is the keyed lookup. *)
Lemma profile_to_signal_wf (p : Profile) (times : list Timestamp) :
  profile_wf p ->
  profile_to_signal p times =
    Some (map (fun t => profile_get p (hour t) (month t)) times).
Proof.
  intros Hwf. unfold profile_to_signal.
  rewrite (merge_left_melt p _ Hwf), map_map.
  rewrite bool_decide_eq_true_2; [done|].
  by rewrite length_map.
Qed.

(** What [profile_to_signal] returns is as long as the time axis, whatever
    the profile. *)
Lemma profile_to_signal_length (p : Profile) (times : list Timestamp) signal :
  profile_to_signal p times = Some signal -> length signal = length times.
Proof.
  unfold profile_to_signal. case_bool_decide; [|done]. by intros [= <-].
Qed.

(** C8. With distinct hour labels and distinct month labels in the profile,
    [profile_to_signal] returns a series that holds, at every timestamp of
    the time axis, the profile entry at (hour, month) of that timestamp when
    the profile has that combination and a missing value (NaN) when it has
    not; two timestamps of the same hour and month hold the same value. *)
Theorem profile_to_signal_lookup (p : Profile) (times : list Timestamp)
    (t : nat) (ts : Timestamp) :
  profile_wf p ->
  times !! t = Some ts ->
  exists signal,
    profile_to_signal p times = Some signal /\
    signal !! t = Some match profile_at p (hour ts) (month ts) with
                       | Some v => v
                       | None => NaN
                       end /\
    forall (t' : nat) (ts' : Timestamp),
      times !! t' = Some ts' ->
      hour ts' = hour ts -> month ts' = month ts ->
      signal !! t' = signal !! t.
Proof.
  intros Hwf Ht. eexists. split; [by apply profile_to_signal_wf|].
  split.
  - by rewrite lookup_map, Ht.
  - intros t' ts' Ht' Hh Hm. rewrite !lookup_map, Ht, Ht'. cbn.
    by rewrite Hh, Hm.
Qed.

(** ** signal_to_profile holds the group means *)

Lemma elem_of_insert_label (x y : Z) (l : list Z) :
  y ∈ insert_label x l <-> y = x \/ y ∈ l.
Proof.
  induction l as [|z l IH]; cbn.
  - rewrite list_elem_of_singleton, elem_of_nil. tauto.
  - repeat case_bool_decide; subst; rewrite ?elem_of_cons, ?IH; tauto.
Qed.

Lemma elem_of_sorted_labels (x : Z) (l : list Z) :
  x ∈ sorted_labels l <-> x ∈ l.
Proof.
  unfold sorted_labels. induction l as [|y l IH]; cbn; [done|].
  rewrite elem_of_insert_label, elem_of_cons, IH. tauto.
Qed.

Lemma index_of_elem (x : Z) (l : list Z) :
  x ∈ l -> exists j : nat, index_of x l = Some j /\ l !! j = Some x.
Proof.
  induction l as [|y l IH]; [by intros ?%elem_of_nil|].
  intros Hin. cbn. case_bool_decide as Hy.
  - subst. by exists 0%nat.
  - apply elem_of_cons in Hin as [->|Hin]; [done|].
    destruct (IH Hin) as (j & -> & Hj). by exists (S j).
Qed.

Lemma index_of_not_elem (x : Z) (l : list Z) :
  x ∉ l -> index_of x l = None.
Proof.
  induction l as [|y l IH]; [done|].
  intros [Hne Hnot]%not_elem_of_cons. cbn.
  rewrite bool_decide_eq_false_2 by done. by rewrite IH.
Qed.

Lemma row_of_map (g : Z -> list num) (h : Z) (hours : list Z) :
  row_of h (map (fun h' => (h', g h')) hours) =
    if bool_decide (h ∈ hours) then Some (g h) else None.
Proof.
  induction hours as [|y hours IH]; [done|].
  cbn [map row_of fst snd]. destruct (decide (y = h)) as [->|Hy].
  - rewrite !bool_decide_eq_true_2; [done|by left|done].
  - rewrite (bool_decide_eq_false_2 (y = h)) by done.
    rewrite IH. destruct (decide (h ∈ hours)) as [Hin|Hnot].
    + rewrite !bool_decide_eq_true_2; [done|by right|done].
    + rewrite !bool_decide_eq_false_2; [done| |done].
      by intros [?|?]%elem_of_cons.
Qed.

Lemma group_mean_defined signal (h m : Z) :
  Num.isnan (group_mean signal h m) = false ->
  (h, m) ∈ map (fun e : Timestamp * num => (hour e.1, month e.1)) signal.
Proof.
  unfold group_mean. intros Hdef.
  destruct (filter (fun e : Timestamp * num => hour e.1 = h ∧ month e.1 = m)
              signal) as [|e l] eqn:E; [done|].
  assert (e ∈ filter (fun e : Timestamp * num => hour e.1 = h ∧ month e.1 = m)
                signal) as Hin by (rewrite E; by left).
  apply list_elem_of_filter in Hin as [[<- <-] Hin].
  change (map ?f signal) with (f <$> signal).
  apply list_elem_of_fmap. by exists e.
Qed.

(** Whatever the labels, an entry of the pivot table is the mean of its
    group, and a combination that the table lacks has no mean. *)
Lemma signal_to_profile_get signal (h m : Z) :
  profile_get (signal_to_profile signal) h m = group_mean signal h m.
Proof.
  unfold profile_get, profile_at, signal_to_profile.
  cbn [profile_months profile_rows].
  set (groups := filter _ _).
  destruct (Num.isnan (group_mean signal h m)) eqn:Hnan.
  - (* no mean: whether or not the labels are there, the entry is missing *)
    destruct (group_mean signal h m) eqn:Hg; try done.
    destruct (index_of m _) as [j|] eqn:Hj; [|done]. cbn.
    rewrite row_of_map. case_bool_decide; [|done]. cbn.
    destruct (decide (m ∈ sorted_labels (map snd groups))) as [Hin|Hnot].
    + destruct (index_of_elem _ _ Hin) as (j' & Hj' & Hlk).
      rewrite Hj in Hj'. injection Hj' as <-.
      by rewrite nth_lookup, lookup_map, Hlk; cbn.
    + by rewrite (index_of_not_elem _ _ Hnot) in Hj.
  - assert ((h, m) ∈ groups) as Hin.
    { apply list_elem_of_filter. split; [done|]. by apply group_mean_defined. }
    assert (h ∈ sorted_labels (map fst groups)) as Hh.
    { apply elem_of_sorted_labels. change (map ?f groups) with (f <$> groups).
      apply list_elem_of_fmap. by exists (h, m). }
    assert (m ∈ sorted_labels (map snd groups)) as Hm.
    { apply elem_of_sorted_labels. change (map ?f groups) with (f <$> groups).
      apply list_elem_of_fmap. by exists (h, m). }
    destruct (index_of_elem _ _ Hm) as (j & -> & Hlk). cbn.
    rewrite row_of_map, bool_decide_eq_true_2 by done. cbn.
    by rewrite nth_lookup, lookup_map, Hlk.
Qed.

(** ** Arithmetic on [num] *)

Ltac qc_hyps :=
  repeat match goal with
  | H : ¬ (_ < _)%Qc |- _ => apply Qcnot_lt_le in H
  | H : ¬ (_ ≤ _)%Qc |- _ => apply Qcnot_le_lt in H
  | H : @eq Qc ?a ?b |- _ =>
      first [ subst a | subst b
            | let H' := fresh in
              assert (H' : (this a == this b)%Q) by (rewrite H; reflexivity);
              clear H ]
  | H : ¬ (@eq Qc ?a ?b) |- _ =>
      let H' := fresh in
      assert (H' : ¬ (this a == this b)%Q)
        by (let E := fresh in intro E; apply H; apply Qc_is_canon; exact E);
      clear H
  end.

Ltac qc2q :=
  unfold Qcle, Qclt, Qcminus, Qcdiv, Qcplus, Qcopp, Qcmult, Q2Qc in *;
  cbn [this] in *;
  repeat match goal with
  | H : context [Qred ?q] |- _ => rewrite (Qred_correct q) in H
  | |- context [Qred ?q] => rewrite (Qred_correct q)
  end.

(** Linear goals over [Qc], through [Q]. *)
Ltac qc_solve :=
  qc_hyps;
  try match goal with |- @eq Qc _ _ => apply Qc_is_canon end;
  try match goal with |- ¬ _ => intro; qc_hyps end;
  qc2q; lra.

Lemma Qc_of_nat_S_pos (k : nat) : (0 < Qc_of_Z (Z.of_nat (S k)))%Qc.
Proof.
  rewrite <- Z2Qc_inj_0. apply (proj1 (Z2Qc_inj_lt 0 (Z.of_nat (S k)))). lia.
Qed.

Lemma mul_one_l (x : num) : 1 * x = x.
Proof.
  destruct x as [| | |q]; try done.
  cbn. f_equal. apply Qcmult_1_l.
Qed.

(** The mean of one value is that value. *)
Lemma nanmean_singleton (v : num) : nanmean [v] = v.
Proof.
  destruct v as [| | |q]; try reflexivity.
  unfold nanmean, dropna. rewrite filter_cons_True by done.
  rewrite filter_nil. cbn [length foldr].
  unfold Num.of_nat, Num.of_Z. cbn [Num.add Num.zero Num.div].
  assert (Qc_of_Z (Z.of_nat 1) = 1%Qc) as -> by (by apply Qc_is_canon).
  rewrite bool_decide_eq_false_2 by done.
  f_equal. field. done.
Qed.

(** ** Round trip *)

Lemma group_of_broadcast (g : Timestamp -> num) (times : list Timestamp)
    (h m : Z) (v : num) :
  (forall ts, hour ts = h -> month ts = m -> g ts = v) ->
  map snd
    (filter (fun e : Timestamp * num => hour e.1 = h ∧ month e.1 = m)
            (zip times (map g times))) =
    replicate
      (length (filter (fun ts => hour ts = h ∧ month ts = m) times)) v.
Proof.
  intros Hg. induction times as [|ts times IH]; [done|].
  cbn [map zip zip_with].
  destruct (decide (hour ts = h ∧ month ts = m)) as [[Hh Hm]|Hno].
  - rewrite !filter_cons_True by done. cbn [map length replicate snd].
    by rewrite (Hg ts Hh Hm), IH.
  - by rewrite !filter_cons_False.
Qed.


(** ** downtime_loss, timestamp by timestamp *)

Section DowntimeLossAt.

Variable n_inv : nat.
Variable inverters : Frame.
Variable meter : Series.
Variable online_mask : Mask.
Variable expected_power typical_power : Series.
Variable is_daylight : list bool.

Variable t : nat.
Variables (row : list num) (m : num) (mrow : list bool).
Hypothesis Hrow : inverters !! t = Some row.
Hypothesis Hm : meter !! t = Some m.
Hypothesis Hmask : online_mask !! t = Some mrow.

Let f0 : num :=
  nansum (zip_with Num.mul (map Num.of_bool mrow)
            (inverter_shares n_inv inverters meter online_mask)).

Lemma lookup_online_fraction_uncorrected :
  online_fraction_uncorrected n_inv inverters meter online_mask !! t
  = Some f0.
Proof.
  unfold online_fraction_uncorrected, mul_axis1, mask_values.
  by rewrite !lookup_map, Hmask.
Qed.

Lemma lookup_inv_sum : inv_sum inverters !! t = Some (nansum row).
Proof. unfold inv_sum. by rewrite lookup_map, Hrow. Qed.

Lemma lookup_communications_factor :
  communications_factor n_inv inverters meter online_mask !! t
  = Some (if f0 =? 0 then 1 else clip (Some 1) None (m / nansum row)).
Proof.
  unfold communications_factor.
  erewrite lookup_setitem_scalar; [done| |].
  - by rewrite lookup_map, lookup_zip_with, Hm, lookup_inv_sum.
  - by rewrite lookup_map, lookup_online_fraction_uncorrected.
Qed.

Let f : num :=
  clip None (Some 1)
    (f0 * (if f0 =? 0 then 1 else clip (Some 1) None (m / nansum row))).

Lemma lookup_online_fraction :
  online_fraction n_inv inverters meter online_mask !! t = Some f.
Proof.
  unfold online_fraction.
  by rewrite lookup_map, lookup_zip_with,
    lookup_online_fraction_uncorrected, lookup_communications_factor.
Qed.

Variables (e y : num) (d : bool).
Hypothesis He : expected_power !! t = Some e.
Hypothesis Hy : typical_power !! t = Some y.
Hypothesis Hd : is_daylight !! t = Some d.

Lemma lookup_lost_power :
  lost_power n_inv inverters meter online_mask expected_power typical_power
    is_daylight !! t
  = Some (lost_before_limit m f e y d).
Proof.
  unfold lost_power, lost_before_limit, estimated_full_power,
    replacement_power.
  erewrite lookup_setitem_where; cycle 1.
  - erewrite lookup_setitem_scalar; [done| |].
    + by rewrite lookup_map, !lookup_zip_with, Hm, lookup_online_fraction.
    + by rewrite lookup_map, Hd.
  - by rewrite lookup_zip_with, lookup_map, lookup_online_fraction, Hd.
  - by rewrite lookup_zip_with, He, Hy.
  - cbn. destruct d, (f =? 0); done.
Qed.

Lemma lookup_limit_total_power (limit : num) :
  limit_total_power limit meter
    (lost_power n_inv inverters meter online_mask expected_power
       typical_power is_daylight) !! t
  = Some (limit_step limit m (lost_before_limit m f e y d)).
Proof.
  unfold limit_total_power, limit_step.
  by rewrite !lookup_map, !lookup_zip_with, !lookup_map, !lookup_zip_with,
    Hm, lookup_lost_power.
Qed.

End DowntimeLossAt.

Lemma lookup_frame_fillna (f : Frame) (t : nat) row :
  f !! t = Some row -> frame_fillna 0 f !! t = Some (fillna 0 row).
Proof. intros H. unfold frame_fillna. by rewrite lookup_map, H. Qed.

Lemma lookup_values (df : DataFrame) (t : nat) ts row :
  rows df !! t = Some (ts, row) -> values df !! t = Some row.
Proof. intros H. unfold values. by rewrite lookup_map, H. Qed.

Lemma lookup_index (df : DataFrame) (t : nat) ts row :
  rows df !! t = Some (ts, row) -> index df !! t = Some ts.
Proof. intros H. unfold index. by rewrite lookup_map, H. Qed.

(** [downtime_loss] returns whenever [profile_to_signal] does, and at every
    timestamp that all its inputs cover the value it returns is the one of
    [lost_before_limit], passed through the system limit. *)
Lemma downtime_loss_at (inverters : DataFrame) (meter : Series)
    (online_mask : Mask) (expected_power : Series)
    (production_profile : Profile) (is_daylight : list bool)
    (system_limit : option num) (typical_power : Series)
    (t : nat) ts row m mrow e d :
  profile_to_signal production_profile (index inverters) = Some typical_power ->
  rows inverters !! t = Some (ts, row) ->
  meter !! t = Some m ->
  online_mask !! t = Some mrow ->
  expected_power !! t = Some e ->
  is_daylight !! t = Some d ->
  exists lost f y,
    downtime_loss inverters meter online_mask expected_power
      production_profile is_daylight system_limit = Some lost /\
    online_fraction (columns inverters) (frame_fillna 0 (values inverters))
      (fillna 0 meter) online_mask !! t = Some f /\
    typical_power !! t = Some y /\
    lost !! t =
      Some (with_limit system_limit (fill0 m)
              (lost_before_limit (fill0 m) f (fill0 e) y d)).
Proof.
  intros Hsig Hrow Hm Hmask He Hd.
  pose proof (lookup_frame_fillna _ _ _ (lookup_values _ _ _ _ Hrow)) as Hrow'.
  pose proof (lookup_fillna 0 _ _ _ Hm) as Hm'.
  pose proof (lookup_fillna 0 _ _ _ He) as He'.
  destruct (typical_power !! t) as [y|] eqn:Hy; cycle 1.
  { apply lookup_ge_None in Hy.
    apply profile_to_signal_length in Hsig.
    apply lookup_index, lookup_lt_Some in Hrow. lia. }
  pose proof (lookup_online_fraction (columns inverters) _ _ _ t _ _ _
                Hrow' Hm' Hmask) as Hf.
  pose proof (lookup_lost_power (columns inverters) _ _ _ _ _ _ t _ _ _
                Hrow' Hm' Hmask _ _ _ He' Hy Hd) as Hlost.
  unfold downtime_loss. rewrite Hsig. cbn [mbind option_bind].
  eexists _, _, y. split; [|split; [exact Hf|split; [done|]]].
  - reflexivity.
  - unfold with_limit. destruct system_limit as [limit|]; [|exact Hlost].
    destruct (truthy (Some limit)); [|exact Hlost].
    exact (lookup_limit_total_power (columns inverters) _ _ _ _ _ _ t _ _ _
             Hrow' Hm' Hmask _ _ _ He' Hy Hd limit).
Qed.

(** ** Case analysis on the four kinds of number *)

Ltac num_unfold :=
  unfold with_limit, truthy, limit_step, lost_before_limit, fill0,
    num_max, num_min, clip, bound, py_min, py_max,
    Num.geb, Num.gtb, Num.sub, Num.zero, Num.one in *.

Ltac num_simpl :=
  cbn [Num.isnan Num.is_finite Num.neg Num.add Num.leb Num.ltb Num.eqb
       negb andb orb] in *.

Ltac num_cases :=
  repeat match goal with x : num |- _ => destruct x end;
  num_unfold; num_simpl;
  repeat first
    [ discriminate
    | progress num_simpl
    | case_bool_decide ];
  try done.

(** Close what [num_cases] leaves: equal rationals, true or false
    comparisons, contradictory bounds. *)
Ltac num_finish :=
  try done;
  first
    [ exfalso; qc_solve
    | f_equal; qc_solve
    | apply bool_decide_eq_true; qc_solve
    | apply bool_decide_eq_false; qc_solve
    | repeat split; num_simpl; try done;
      first [ apply bool_decide_eq_true; qc_solve
            | apply bool_decide_eq_false; qc_solve
            | exfalso; qc_solve ] ].

Lemma clip_lower_one (x : num) : clip (Some 1) None x = num_max 1 x.
Proof. num_cases. Qed.

Lemma clip_upper_one (x : num) : clip None (Some 1) x = num_min 1 x.
Proof. num_cases; num_finish. Qed.

Lemma with_limit_zero (limit m : num) :
  Num.is_finite m = true -> (0 <=? limit) = true ->
  with_limit (Some limit) m 0 = 0.
Proof. intros Hm Hlimit. num_cases; num_finish. Qed.

Lemma with_limit_night (system_limit : option num) (m f e y : num) :
  match system_limit with
  | Some limit => (0 <=? limit) = true /\ Num.is_finite m = true
  | None => True
  end ->
  with_limit system_limit m (lost_before_limit m f e y false) = 0.
Proof.
  intros Hlimit.
  assert (lost_before_limit m f e y false = 0) as ->.
  { unfold lost_before_limit. by rewrite andb_false_r. }
  destruct system_limit as [limit|]; [|done].
  destruct Hlimit. by apply with_limit_zero.
Qed.

Lemma with_limit_bounds (limit m lost : num) :
  (0 <? limit) = true ->
  Num.isnan (with_limit (Some limit) m lost) = false ->
  (0 <=? with_limit (Some limit) m lost) = true /\
  (with_limit (Some limit) m lost <=? limit) = true /\
  ((m <=? limit) = true ->
   (with_limit (Some limit) m lost <=? limit - m) = true).
Proof.
  intros Hpos Hdef. num_cases; num_finish.
Qed.

Lemma lost_before_limit_nonneg (m f e y : num) (d : bool) :
  (y <? 0) = false ->
  Num.isnan (lost_before_limit m f e y d) = false ->
  (0 <=? lost_before_limit m f e y d) = true.
Proof.
  intros Hy. unfold lost_before_limit.
  destruct ((f =? 0) && d).
  - destruct (e >? 0) eqn:He.
    + intros _. clear Hy. num_cases; num_finish.
    + intros Hdef. clear He. num_cases; num_finish.
  - destruct d; [|done].
    generalize (m / f - m). intros x Hdef. num_cases; num_finish.
Qed.

(** In binary64 the sum [meter + lost_power] can exceed the limit although
    the meter reading does not: with a meter reading of 0.3 and 5 lost
    before a limit of 0.9, the lost power is [0.9 - 0.3], one rounding step
    above 0.6, and adding 0.3 back gives more than 0.9. *)
Lemma limit_sum_rounds_above :
  (3 / 10 <=? 9 / 10)%float = true /\
  (Binary64.limit_step (9 / 10) (3 / 10) 5 =? 9 / 10 - 3 / 10)%float = true /\
  (9 / 10 <? 3 / 10 + Binary64.limit_step (9 / 10) (3 / 10) 5)%float = true.
Proof. vm_compute. by repeat split. Qed.

(** ** downtime_loss *)

(** C10. A system limit of 0 is falsy: the last block of [downtime_loss] is
    skipped and the call returns exactly what the call without a system
    limit returns. *)
Theorem downtime_loss_limit_zero (inverters : DataFrame) (meter : Series)
    (online_mask : Mask) (expected_power : Series)
    (production_profile : Profile) (is_daylight : list bool) :
  downtime_loss inverters meter online_mask expected_power
    production_profile is_daylight (Some 0)
  = downtime_loss inverters meter online_mask expected_power
      production_profile is_daylight None.
Proof. reflexivity. Qed.

(** C6. At every timestamp the online fraction that [downtime_loss] goes on
    with is the uncorrected fraction [f0] times the communications factor,
    cut at 1: the factor is 1 where [f0] is exactly zero and
    [max(1, meter / sum of the inverter readings)] elsewhere. *)
Theorem online_fraction_correction (n_inv : nat) (inverters : Frame)
    (meter : Series) (online_mask : Mask) (t : nat) (row : list num)
    (m f0 : num) :
  inverters !! t = Some row ->
  meter !! t = Some m ->
  online_fraction_uncorrected n_inv inverters meter online_mask !! t
    = Some f0 ->
  communications_factor n_inv inverters meter online_mask !! t
    = Some (if f0 =? 0 then 1 else num_max 1 (m / nansum row)) /\
  online_fraction n_inv inverters meter online_mask !! t
    = Some (num_min 1
              (f0 * (if f0 =? 0 then 1 else num_max 1 (m / nansum row)))).
Proof.
  intros Hrow Hm Hf0.
  destruct (online_mask !! t) as [mrow|] eqn:Hmask; cycle 1.
  { unfold online_fraction_uncorrected, mul_axis1, mask_values in Hf0.
    by rewrite !lookup_map, Hmask in Hf0. }
  rewrite (lookup_online_fraction_uncorrected n_inv _ _ _ t _ Hmask) in Hf0.
  injection Hf0 as Hf0.
  rewrite (lookup_communications_factor n_inv _ _ _ t _ _ _ Hrow Hm Hmask).
  rewrite (lookup_online_fraction n_inv _ _ _ t _ _ _ Hrow Hm Hmask).
  rewrite Hf0, clip_upper_one, clip_lower_one. done.
Qed.

(** C9, amended.  At a timestamp where [is_daylight] is False,
    [downtime_loss] returns exactly 0 when no system limit is given, and
    when the system limit given is not negative and the meter reading is
    finite. *)
Theorem downtime_loss_night (inverters : DataFrame) (meter : Series)
    (online_mask : Mask) (expected_power : Series)
    (production_profile : Profile) (is_daylight : list bool)
    (system_limit : option num) (t : nat) ts row m mrow e :
  profile_wf production_profile ->
  rows inverters !! t = Some (ts, row) ->
  meter !! t = Some m ->
  online_mask !! t = Some mrow ->
  expected_power !! t = Some e ->
  is_daylight !! t = Some false ->
  match system_limit with
  | Some limit => (0 <=? limit) = true /\ Num.is_finite (fill0 m) = true
  | None => True
  end ->
  exists lost,
    downtime_loss inverters meter online_mask expected_power
      production_profile is_daylight system_limit = Some lost /\
    lost !! t = Some 0.
Proof.
  intros Hwf Hrow Hm Hmask He Hd Hlimit.
  destruct (downtime_loss_at inverters meter online_mask expected_power
              production_profile is_daylight system_limit _ t ts row m mrow
              e false (profile_to_signal_wf _ _ Hwf) Hrow Hm Hmask He Hd)
    as (lost & f & y & Hlost & _ & _ & Hv).
  exists lost. split; [done|].
  by rewrite Hv, with_limit_night.
Qed.


(** ** is_online, timestamp by timestamp *)

Section IsOnlineAt.

Variable n_inv : nat.
Variable inverters : Frame.
Variable meter : Series.
Variable low_limit : LowLimit.

Variable t : nat.
Variables (row : list num) (m : num).
Hypothesis Hrow : inverters !! t = Some row.
Hypothesis Hm : meter !! t = Some m.

Let reporting_row : list num :=
  zip_with (fun x (b : bool) => if b then x else NaN)
    row (compare_row Num.gtb row low_limit).

Lemma lookup_reporting :
  reporting inverters low_limit !! t = Some reporting_row.
Proof.
  unfold reporting, where_.
  by rewrite lookup_zip_with, Hrow, (lookup_compare_limit _ _ _ _ _ Hrow).
Qed.

Let sized : num :=
  nanmean (zip_with Num.div reporting_row
             (relative_sizing n_inv inverters low_limit)).

Lemma lookup_mean_sized_power :
  mean_sized_power n_inv inverters low_limit !! t = Some sized.
Proof.
  unfold mean_sized_power, div_axis1.
  by rewrite !lookup_map, lookup_reporting.
Qed.

Let all_offline : bool := forallb id (compare_row Num.ltb row low_limit).

Lemma lookup_all_inverters_appear_offline :
  all_inverters_appear_offline inverters low_limit !! t = Some all_offline.
Proof.
  unfold all_inverters_appear_offline, all_axis1.
  by rewrite lookup_map, (lookup_compare_limit _ _ _ _ _ Hrow).
Qed.

Let power : num := if all_offline then m / Num.of_nat n_inv else sized.

Lemma lookup_mean_inverter_power :
  mean_inverter_power n_inv inverters meter low_limit !! t = Some power.
Proof.
  unfold mean_inverter_power.
  erewrite lookup_setitem_where; [done| | |].
  - apply lookup_mean_sized_power.
  - apply lookup_all_inverters_appear_offline.
  - by rewrite lookup_map, Hm.
Qed.

Lemma lookup_site_offline :
  site_offline inverters meter low_limit !! t
  = Some (all_offline && (m <? np_sum low_limit)).
Proof.
  unfold site_offline, meter_appears_offline.
  by rewrite lookup_zip_with, lookup_all_inverters_appear_offline,
    lookup_map, Hm.
Qed.

Lemma lookup_meter_delta :
  meter_delta n_inv inverters meter low_limit !! t
  = Some (1 - m / (Num.of_nat n_inv * power)).
Proof.
  unfold meter_delta.
  by rewrite lookup_zip_with, Hm, lookup_mean_inverter_power.
Qed.

Let smallest : num :=
  fill1
    (nanmin
       (zip_with Num.mul
          (map (fun b : bool => if b then 1 else NaN)
               (compare_row Num.leb row low_limit))
          (inverter_fraction n_inv inverters low_limit))).

Lemma lookup_smallest_delta :
  smallest_delta n_inv inverters low_limit !! t = Some smallest.
Proof.
  unfold smallest_delta, fillna, mul_axis1, replace_false_nan.
  by rewrite !lookup_map, (lookup_compare_limit _ _ _ _ _ Hrow).
Qed.

Let low : bool :=
  1 - m / (Num.of_nat n_inv * power) >? Num.of_Q (3 # 4) * smallest.

Lemma lookup_meter_appears_low :
  meter_appears_low n_inv inverters meter low_limit !! t = Some low.
Proof.
  unfold meter_appears_low.
  by rewrite lookup_zip_with, lookup_meter_delta, lookup_smallest_delta.
Qed.

Let all_online : bool := forallb id (compare_row Num.gtb row low_limit).

Lemma lookup_inverters_offline :
  inverters_offline n_inv inverters meter low_limit !! t
  = Some (negb all_online && low).
Proof.
  unfold inverters_offline, inverters_appear_offline, all_axis1.
  by rewrite lookup_zip_with, !lookup_map,
    (lookup_compare_limit _ _ _ _ _ Hrow), lookup_meter_appears_low.
Qed.

Lemma lookup_online_mask (times : list Timestamp) ts :
  times !! t = Some ts ->
  online_mask n_inv inverters meter low_limit times !! t
  = Some (let mask_row :=
            if negb all_online && low
            then compare_row Num.gtb row low_limit
            else replicate n_inv true in
          if all_offline && (m <? np_sum low_limit)
          then map (fun _ => false) mask_row
          else mask_row).
Proof.
  intros Hts. unfold online_mask.
  rewrite lookup_zip_with, lookup_site_offline.
  erewrite lookup_zip_with3; [done| | |].
  - by rewrite lookup_map, Hts.
  - apply lookup_inverters_offline.
  - by apply lookup_compare_limit.
Qed.

End IsOnlineAt.

(** ** is_online *)

Lemma gtb_not_ltb (x y : num) : (x >? y) = true -> (x <? y) = false.
Proof. intros H. num_cases; num_finish. Qed.

Lemma forallb_compare_row (op : num -> num -> bool) (l : LowLimit)
    (row : list num) :
  readings op l row -> forallb id (compare_row op row l) = true.
Proof.
  destruct l as [x|s]; cbn [readings compare_row].
  - induction 1 as [|v row Hv _ IH]; [done|]. cbn. by rewrite Hv, IH.
  - induction 1 as [|v x row s Hv _ IH]; [done|]. cbn. by rewrite Hv, IH.
Qed.

Lemma compare_row_readings (op : num -> num -> bool) (l : LowLimit)
    (row : list num) :
  match l with
  | LimitFloat _ => True
  | LimitSeries s => length s = length row
  end ->
  forallb id (compare_row op row l) = true -> readings op l row.
Proof.
  destruct l as [x|s]; cbn [readings compare_row].
  - intros _. induction row as [|v row IH]; [by constructor|].
    cbn. intros [Hv Hrest]%andb_true_iff. constructor; [done|by apply IH].
  - revert s. induction row as [|v row IH]; intros [|x s]; cbn; try done.
    intros [= Hlen] [Hv Hrest]%andb_true_iff.
    constructor; [done|by apply IH].
Qed.

Lemma some_above_not_all_below (l : LowLimit) (row : list num) :
  readings Num.gtb l row -> row <> [] ->
  forallb id (compare_row Num.ltb row l) = false.
Proof.
  destruct l as [x|s]; cbn [readings compare_row].
  - intros [|v row' Hv _]; [done|]. intros _. cbn.
    by rewrite (gtb_not_ltb _ _ Hv).
  - intros [|v y row' s' Hv _]; [done|]. intros _. cbn.
    by rewrite (gtb_not_ltb _ _ Hv).
Qed.

(** C5. At every timestamp where all inverters read below their thresholds,
    the mean inverter power that the rest of [is_online] uses is the meter
    reading divided by the number of inverters. *)
Theorem mean_inverter_power_all_offline (inverters : DataFrame)
    (meter : Series) (low_limit : option LowLimit) (t : nat) ts row m :
  rows inverters !! t = Some (ts, row) ->
  meter !! t = Some m ->
  readings Num.ltb
    (resolve_low_limit (columns inverters)
       (frame_fillna 0 (values inverters)) low_limit)
    (fillna 0 row) ->
  mean_inverter_power (columns inverters)
    (frame_fillna 0 (values inverters)) (fillna 0 meter)
    (resolve_low_limit (columns inverters)
       (frame_fillna 0 (values inverters)) low_limit) !! t
  = Some (fill0 m / Num.of_nat (columns inverters)).
Proof.
  intros Hrow Hm Hbelow.
  pose proof (lookup_frame_fillna _ _ _ (lookup_values _ _ _ _ Hrow)) as Hrow'.
  pose proof (lookup_fillna 0 _ _ _ Hm) as Hm'.
  rewrite (lookup_mean_inverter_power _ _ _ _ t _ _ Hrow' Hm').
  by rewrite (forallb_compare_row _ _ _ Hbelow).
Qed.

(** C4. At every timestamp where every inverter reads above its resolved
    threshold, the row of the mask that [is_online] returns is all True. *)
Theorem is_online_all_above (inverters : DataFrame) (meter : Series)
    (low_limit : option LowLimit) (t : nat) ts row m :
  rows inverters !! t = Some (ts, row) ->
  meter !! t = Some m ->
  length row = columns inverters ->
  readings Num.gtb
    (resolve_low_limit (columns inverters)
       (frame_fillna 0 (values inverters)) low_limit)
    (fillna 0 row) ->
  is_online inverters meter low_limit !! t
  = Some (replicate (columns inverters) true).
Proof.
  intros Hrow Hm Hlen Habove.
  pose proof (lookup_frame_fillna _ _ _ (lookup_values _ _ _ _ Hrow)) as Hrow'.
  pose proof (lookup_fillna 0 _ _ _ Hm) as Hm'.
  unfold is_online.
  rewrite (lookup_online_mask _ _ _ _ t _ _ Hrow' Hm' _ ts
             (lookup_index _ _ _ _ Hrow)).
  rewrite (forallb_compare_row _ _ _ Habove). cbn [negb andb].
  destruct row as [|v row].
  - cbn [length] in Hlen. rewrite <- Hlen. cbn [replicate map].
    by destruct (_ && _).
  - rewrite some_above_not_all_below; [done|done|].
    unfold fillna. done.
Qed.

(** *** The smallest fraction among the inverters that appear offline *)

Lemma dropna_offline (flags : list bool) (fractions : list num) :
  dropna (zip_with Num.mul
            (map (fun b : bool => if b then 1 else NaN) flags) fractions)
  = dropna (map snd (filter (fun bf : bool * num => bf.1 = true)
                            (zip flags fractions))).
Proof.
  unfold dropna. revert fractions.
  induction flags as [|b flags IH]; intros [|x fractions]; try done.
  cbn [map zip zip_with]. destruct b.
  - rewrite mul_one_l, (filter_cons_True (fun bf : bool * num => bf.1 = true))
      by done.
    cbn [map snd]. destruct (Num.isnan x) eqn:Hx.
    + rewrite !(filter_cons_False (fun y => Num.isnan y = false))
        by (by rewrite Hx).
      apply IH.
    + rewrite !(filter_cons_True (fun y => Num.isnan y = false)) by done.
      f_equal. apply IH.
  - rewrite (filter_cons_False (fun bf : bool * num => bf.1 = true)) by done.
    rewrite (filter_cons_False (fun y => Num.isnan y = false)) by done.
    apply IH.
Qed.

Lemma nanmin_dropna (l l' : list num) :
  dropna l = dropna l' -> nanmin l = nanmin l'.
Proof. unfold nanmin. by intros ->. Qed.

Lemma nanmin_defined (l : list num) :
  dropna l <> [] -> Num.isnan (nanmin l) = false.
Proof.
  unfold nanmin. intros Hne.
  assert (Forall (fun x => Num.isnan x = false) (dropna l)) as Hall.
  { apply Forall_forall. by intros x [? _]%list_elem_of_filter. }
  destruct (dropna l) as [|x rest]; [done|].
  apply Forall_cons in Hall as [Hx Hrest]. clear Hne.
  induction Hrest as [|y rest Hy _ IH]; [done|].
  cbn [foldr]. by destruct (_ <? _).
Qed.

Lemma fill1_nanmin (l : list num) :
  fill1 (nanmin l) = match dropna l with [] => 1 | _ => nanmin l end.
Proof.
  destruct (dropna l) as [|x rest] eqn:E.
  - unfold nanmin. by rewrite E.
  - unfold fill1. rewrite nanmin_defined; [done|]. by rewrite E.
Qed.

(** C3, amended.  At every timestamp of the inverter data and the meter
    series, the meter is judged to corroborate offline inverters exactly
    when [meter_delta > 0.75 * smallest_delta], where [meter_delta] is
    [1 - meter / (n_inv * mean_inverter_power)] and [smallest_delta] is the
    smallest relative-sizing fraction that is defined (not NaN) among the
    inverters reading at or below their threshold, or 1 when there is no
    such fraction. *)
Theorem meter_appears_low_defined (n_inv : nat) (inverters : Frame)
    (meter : Series) (low_limit : LowLimit) (t : nat) row m :
  inverters !! t = Some row ->
  meter !! t = Some m ->
  exists p,
    mean_inverter_power n_inv inverters meter low_limit !! t = Some p /\
    meter_delta n_inv inverters meter low_limit !! t
      = Some (1 - m / (Num.of_nat n_inv * p)) /\
    smallest_delta n_inv inverters low_limit !! t
      = Some (smallest_delta_defined low_limit row
                (inverter_fraction n_inv inverters low_limit)) /\
    meter_appears_low n_inv inverters meter low_limit !! t
      = Some (1 - m / (Num.of_nat n_inv * p)
              >? Num.of_Q (3 # 4)
                 * smallest_delta_defined low_limit row
                     (inverter_fraction n_inv inverters low_limit)).
Proof.
  intros Hrow Hm.
  assert (fill1
            (nanmin
               (zip_with Num.mul
                  (map (fun b : bool => if b then 1 else NaN)
                       (compare_row Num.leb row low_limit))
                  (inverter_fraction n_inv inverters low_limit)))
          = smallest_delta_defined low_limit row
              (inverter_fraction n_inv inverters low_limit)) as Hsmall.
  { rewrite fill1_nanmin. unfold smallest_delta_defined, offline_fractions.
    rewrite dropna_offline.
    rewrite (nanmin_dropna _ _ (dropna_offline _ _)). done. }
  eexists. split; [by eapply lookup_mean_inverter_power|].
  split; [by eapply lookup_meter_delta|].
  split.
  - rewrite (lookup_smallest_delta n_inv _ _ t _ Hrow). by rewrite Hsmall.
  - rewrite (lookup_meter_appears_low n_inv _ _ _ t _ _ Hrow Hm).
    by rewrite Hsmall.
Qed.

(** *** The site-offline flag *)

(** With per-inverter thresholds (given as a series, or the default) the
    flag is raised exactly when every inverter reads below its threshold
    and the meter reads below the sum of the thresholds. *)
Lemma site_offline_series (inverters : Frame) (meter : Series)
    (s : list num) (t : nat) row m :
  inverters !! t = Some row ->
  meter !! t = Some m ->
  length s = length row ->
  site_offline inverters meter (LimitSeries s) !! t = Some true <->
  readings Num.ltb (LimitSeries s) row /\
  (m <? sum_of_thresholds (length row) (LimitSeries s)) = true.
Proof.
  intros Hrow Hm Hlen.
  rewrite (lookup_site_offline _ _ _ t _ _ Hrow Hm).
  cbn [np_sum sum_of_thresholds]. split.
  - intros [= [Hall Hmeter]%andb_true_iff]. split; [|done].
    by apply compare_row_readings.
  - intros [Hall Hmeter]. by rewrite (forallb_compare_row _ _ _ Hall), Hmeter.
Qed.

(** Where the flag is raised, the row of the mask is all False. *)
Lemma online_mask_site_offline (n_inv : nat) (inverters : Frame)
    (meter : Series) (low_limit : LowLimit) (times : list Timestamp)
    (t : nat) row m ts :
  inverters !! t = Some row ->
  meter !! t = Some m ->
  times !! t = Some ts ->
  site_offline inverters meter low_limit !! t = Some true ->
  exists mask_row,
    online_mask n_inv inverters meter low_limit times !! t = Some mask_row /\
    Forall (fun b => b = false) mask_row.
Proof.
  intros Hrow Hm Hts Hsite.
  rewrite (lookup_site_offline _ _ _ t _ _ Hrow Hm) in Hsite.
  injection Hsite as Hsite.
  rewrite (lookup_online_mask n_inv _ _ _ t _ _ Hrow Hm _ _ Hts).
  cbn zeta. rewrite Hsite. eexists. split; [done|].
  apply Forall_forall. intros b Hb.
  change (map ?f ?l) with (f <$> l) in Hb.
  by apply list_elem_of_fmap in Hb as (? & -> & _).
Qed.

(** C2, failing input.  Three inverters report 0 and the meter reads 15,
    with the float 10 as [low_limit]: every inverter is below its threshold
    and the meter is below the sum of the three thresholds (30), yet the site
    is not flagged offline and the mask row is all True, because
    [np.sum(low_limit)] of a float is the float itself.  With the same
    thresholds given as a series the site is flagged and the row is all
    False. *)
Theorem is_online_float_limit_sum :
  readings Num.ltb (LimitFloat (Examples.kw 10)) [0; 0; 0] /\
  (Examples.kw 15 <? sum_of_thresholds 3 (LimitFloat (Examples.kw 10))) = true /\
  site_offline (values Examples.silent) [Examples.kw 15]
    (LimitFloat (Examples.kw 10)) = [false] /\
  is_online Examples.silent [Examples.kw 15]
    (Some (LimitFloat (Examples.kw 10))) = [[true; true; true]] /\
  is_online Examples.silent [Examples.kw 15]
    (Some (LimitSeries [Examples.kw 10; Examples.kw 10; Examples.kw 10]))
  = [[false; false; false]].
Proof.
  split; [|split; [|split; [|split]]]; try (vm_compute; reflexivity).
  repeat constructor.
Qed.

(** * The claims on sample plants *)

Section Samples.

Import Examples.

(** A closed decidable statement, by evaluation. *)
Local Ltac by_compute := apply (bool_decide_unpack _); vm_compute; exact I.

Lemma profile_wf_sample : profile_wf profile.
Proof. split; by_compute. Defined.


(** C9 as stated fails.  With a system limit of -5, lost power at the
    second timestamp, where [is_daylight] is False, is -5; and with a
    system limit of 250 it is missing (NaN) there when the meter reading
    is minus infinity. *)
Lemma downtime_loss_night_counterexample :
  [true; false] !! 1%nat = Some false /\
  (downtime_loss plant plant_meter plant_mask [kw 0; kw 0] profile
     [true; false] (Some (kw (-5))) = Some [kw (-5); kw (-5)]
   /\ (kw (-5) =? 0)%num = false) /\
  (downtime_loss plant [kw 300; NInf] plant_mask [kw 0; kw 0] profile
     [true; false] (Some (kw 250)) = Some [0%num; NaN]
   /\ (NaN =? 0)%num = false).
Proof. repeat split; by_compute. Qed.

(** C3 as stated fails.  The first of three inverters never reports above
    its threshold, so it appears offline and has no relative-sizing
    fraction; the meter reads 50 against 300 expected.  The code takes
    [smallest_delta] = 1 and finds the meter low; the minimum over the
    inverters that appear offline is missing, and [meter_delta] is not
    above 0.75 times a missing value. *)
Lemma meter_appears_low_counterexample :
  offline_fractions (LimitFloat (kw 10)) [kw 0; kw 100; kw 100]
    (inverter_fraction 3 (values one_down) (LimitFloat (kw 10))) = [NaN] /\
  smallest_delta 3 (values one_down) (LimitFloat (kw 10)) = [1%num] /\
  meter_appears_low 3 (values one_down) [kw 50] (LimitFloat (kw 10))
    !! 0%nat = Some true /\
  meter_appears_low_stated 3 (values one_down) [kw 50] (LimitFloat (kw 10))
    0%nat = Some false.
Proof. repeat split; by_compute. Qed.

(** C8 on the sample profile. *)
Lemma profile_to_signal_lookup_witness :
  exists signal,
    profile_to_signal profile [noon; one_pm; noon] = Some signal /\
    signal !! 2%nat = Some match profile_at profile (hour noon) (month noon) with
                           | Some v => v
                           | None => NaN
                           end /\
    forall (t' : nat) (ts' : Timestamp),
      [noon; one_pm; noon] !! t' = Some ts' ->
      hour ts' = hour noon -> month ts' = month noon ->
      signal !! t' = signal !! 2%nat.
Proof.
  apply (profile_to_signal_lookup profile [noon; one_pm; noon] 2 noon).
  - exact profile_wf_sample.
  - reflexivity.
Defined.



(** C5 on the silent plant. *)
Lemma mean_inverter_power_all_offline_witness :
  mean_inverter_power (columns silent)
    (frame_fillna 0 (values silent)) (fillna 0 [kw 15])
    (resolve_low_limit (columns silent)
       (frame_fillna 0 (values silent)) (Some (LimitFloat (kw 10)))) !! 0%nat
  = Some (fill0 (kw 15) / Num.of_nat (columns silent))%num.
Proof.
  apply (mean_inverter_power_all_offline silent [kw 15]
           (Some (LimitFloat (kw 10))) 0 noon [kw 0; kw 0; kw 0] (kw 15)).
  - reflexivity.
  - reflexivity.
  - repeat constructor.
Defined.

(** C4 on the sample plant at noon. *)
Lemma is_online_all_above_witness :
  is_online plant plant_meter (Some (LimitFloat (kw 10))) !! 0%nat
  = Some (replicate (columns plant) true).
Proof.
  apply (is_online_all_above plant plant_meter (Some (LimitFloat (kw 10)))
           0 noon [kw 100; kw 100; kw 100] (kw 300)).
  - reflexivity.
  - reflexivity.
  - reflexivity.
  - repeat constructor.
Defined.

(** C3, amended, on the plant whose first inverter is down. *)
Lemma meter_appears_low_defined_witness :
  exists p,
    mean_inverter_power 3 (values one_down) [kw 50] (LimitFloat (kw 10))
      !! 0%nat = Some p /\
    meter_delta 3 (values one_down) [kw 50] (LimitFloat (kw 10)) !! 0%nat
      = Some (1 - kw 50 / (Num.of_nat 3 * p))%num /\
    smallest_delta 3 (values one_down) (LimitFloat (kw 10)) !! 0%nat
      = Some (smallest_delta_defined (LimitFloat (kw 10))
                [kw 0; kw 100; kw 100]
                (inverter_fraction 3 (values one_down) (LimitFloat (kw 10)))) /\
    meter_appears_low 3 (values one_down) [kw 50] (LimitFloat (kw 10))
      !! 0%nat
      = Some (1 - kw 50 / (Num.of_nat 3 * p)
              >? Num.of_Q (3 # 4)
                 * smallest_delta_defined (LimitFloat (kw 10))
                     [kw 0; kw 100; kw 100]
                     (inverter_fraction 3 (values one_down)
                        (LimitFloat (kw 10))))%num.
Proof.
  apply (meter_appears_low_defined 3 (values one_down) [kw 50]
           (LimitFloat (kw 10)) 0 [kw 0; kw 100; kw 100] (kw 50));
    reflexivity.
Defined.

(** C6 on the sample plant at one o'clock: two of three inverters online,
    an uncorrected online fraction of 5/7. *)
Lemma online_fraction_correction_witness :
  communications_factor 3 (values plant) plant_meter plant_mask !! 1%nat
    = Some (if Num.of_Q (5 # 7) =? 0 then 1
            else num_max 1 (kw 200 / nansum [kw 0; kw 100; kw 100]))%num /\
  online_fraction 3 (values plant) plant_meter plant_mask !! 1%nat
    = Some (num_min 1
              (Num.of_Q (5 # 7)
               * (if Num.of_Q (5 # 7) =? 0 then 1
                  else num_max 1 (kw 200 / nansum [kw 0; kw 100; kw 100]))))%num.
Proof.
  apply (online_fraction_correction 3 (values plant) plant_meter plant_mask
           1 [kw 0; kw 100; kw 100] (kw 200) (Num.of_Q (5 # 7))).
  - reflexivity.
  - reflexivity.
  - by_compute.
Defined.

(** C9, amended, on the sample plant, the second timestamp being dark and
    the system limit 250. *)
Lemma downtime_loss_night_witness :
  exists lost,
    downtime_loss plant plant_meter plant_mask [kw 0; kw 0] profile
      [true; false] (Some (kw 250)) = Some lost /\
    lost !! 1%nat = Some 0%num.
Proof.
  apply (downtime_loss_night plant plant_meter plant_mask [kw 0; kw 0] profile
           [true; false] (Some (kw 250)) 1 one_pm [kw 0; kw 100; kw 100]
           (kw 200) [false; true; true] (kw 0)).
  - exact profile_wf_sample.
  - reflexivity.
  - reflexivity.
  - by_compute.
  - reflexivity.
  - reflexivity.
  - split; [by_compute|reflexivity].
Defined.


End Samples.

(** * Further properties *)

Import Conditions.

(** ** The shape of the mask *)

Lemma length_compare_row (op : num -> num -> bool) (row : list num)
    (l : LowLimit) (n : nat) :
  length row = n ->
  match l with LimitFloat _ => True | LimitSeries s => length s = n end ->
  length (compare_row op row l) = n.
Proof.
  intros Hrow Hl. destruct l as [x|s]; cbn [compare_row].
  - by rewrite length_map.
  - rewrite length_zip_with. lia.
Qed.

Lemma length_default_low_limit (n_inv : nat) (inverters : Frame) :
  match default_low_limit n_inv inverters with
  | LimitFloat _ => True
  | LimitSeries s => length s = n_inv
  end.
Proof.
  unfold default_low_limit, reduce_columns.
  by rewrite !length_map, length_seq.
Qed.

Lemma length_resolve_low_limit (n_inv : nat) (inverters : Frame)
    (low_limit : option LowLimit) :
  match low_limit with
  | Some (LimitSeries s) => length s = n_inv
  | _ => True
  end ->
  match resolve_low_limit n_inv inverters low_limit with
  | LimitFloat _ => True
  | LimitSeries s => length s = n_inv
  end.
Proof.
  destruct low_limit as [[x|s]|]; cbn [resolve_low_limit]; try done.
  intros _. apply length_default_low_limit.
Qed.

Lemma length_online_mask (n_inv : nat) (inverters : Frame) (meter : Series)
    (low_limit : LowLimit) (times : list Timestamp) :
  length times = length inverters ->
  length meter = length inverters ->
  length (online_mask n_inv inverters meter low_limit times)
  = length inverters.
Proof.
  intros Htimes Hmeter.
  unfold online_mask, zip_with3, site_offline, inverters_offline,
    inverters_appear_offline, meter_appears_low, meter_appears_offline,
    all_inverters_appear_offline, meter_delta, smallest_delta,
    mean_inverter_power, setitem_where, zip_with3, mean_sized_power,
    div_axis1, reporting, where_, all_axis1, compare_limit, fillna,
    mul_axis1, replace_false_nan.
  repeat (rewrite ?length_zip_with, ?length_map).
  unfold all_inverters_appear_offline, all_axis1, compare_limit.
  repeat (rewrite ?length_zip_with, ?length_map).
  lia.
Qed.

(** X1. When the meter series covers the time axis, every row of
    [inverters] has one reading per column and a [low_limit] series has one
    entry per column, the mask that [is_online] returns has one row per
    timestamp and one entry per inverter in every row. *)
Theorem is_online_shape (inverters : DataFrame) (meter : Series)
    (low_limit : option LowLimit) :
  length meter = length (rows inverters) ->
  Forall (fun r : Timestamp * list num => length r.2 = columns inverters)
    (rows inverters) ->
  match low_limit with
  | Some (LimitSeries s) => length s = columns inverters
  | _ => True
  end ->
  length (is_online inverters meter low_limit) = length (rows inverters) /\
  Forall (fun mask_row : list bool => length mask_row = columns inverters)
    (is_online inverters meter low_limit).
Proof.
  intros Hmeter Hrows Hlimit.
  assert (length (is_online inverters meter low_limit)
          = length (rows inverters)) as Hlen.
  { unfold is_online. rewrite length_online_mask.
    - unfold frame_fillna, values. by rewrite !length_map.
    - unfold index, frame_fillna, values. by rewrite !length_map.
    - unfold fillna, frame_fillna, values. by rewrite !length_map. }
  split; [done|].
  apply Forall_lookup. intros t mask_row Ht.
  assert (t < length (rows inverters))%nat as Hlt.
  { rewrite <- Hlen. by eapply lookup_lt_Some. }
  destruct (lookup_lt_is_Some_2 (rows inverters) t Hlt) as [[ts row] Hrow].
  destruct (lookup_lt_is_Some_2 meter t ltac:(lia)) as [m Hm].
  pose proof (lookup_frame_fillna _ _ _ (lookup_values _ _ _ _ Hrow)) as Hrow'.
  pose proof (lookup_fillna 0 _ _ _ Hm) as Hm'.
  unfold is_online in Ht.
  rewrite (lookup_online_mask _ _ _ _ t _ _ Hrow' Hm' _ ts
             (lookup_index _ _ _ _ Hrow)) in Ht.
  injection Ht as <-. cbn zeta.
  assert (length (fillna 0 row) = columns inverters) as Hrowlen.
  { unfold fillna. rewrite length_map.
    exact (proj1 (Forall_lookup _ _) Hrows t _ Hrow). }
  pose proof (length_resolve_low_limit (columns inverters)
                (frame_fillna 0 (values inverters)) low_limit Hlimit) as Hl.
  repeat match goal with |- context [if ?b then _ else _] => destruct b end;
    rewrite ?length_map, ?length_replicate; try done;
    by apply length_compare_row.
Qed.

(** ** Which inverters the mask can flag *)

Lemma ltb_not_gtb (x y : num) : (x <? y) = true -> (x >? y) = false.
Proof. intros H. num_cases; num_finish. Qed.

Lemma lookup_compare_row (op : num -> num -> bool) (row : list num)
    (l : LowLimit) (j : nat) x lim :
  row !! j = Some x -> threshold l j = Some lim ->
  compare_row op row l !! j = Some (op x lim).
Proof.
  intros Hx Hlim. destruct l as [y|s]; cbn [compare_row threshold] in *.
  - injection Hlim as ->. by rewrite lookup_map, Hx.
  - by rewrite lookup_zip_with, Hx, Hlim.
Qed.

Lemma forallb_lookup (l : list bool) (j : nat) b :
  forallb id l = true -> l !! j = Some b -> b = true.
Proof.
  revert j. induction l as [|c l IH]; intros [|j]; cbn; try done.
  - intros [Hc _]%andb_true_iff [= <-]. done.
  - intros [_ Hl]%andb_true_iff Hj. by eapply IH.
Qed.

(** X2. [is_online] never marks as offline an inverter that reads above its
    threshold: an entry of the mask that is False belongs to a reading that
    is not above the threshold of its inverter. *)
Theorem is_online_flags_only_below (inverters : DataFrame) (meter : Series)
    (low_limit : option LowLimit) (t j : nat) ts row m mask_row x lim :
  rows inverters !! t = Some (ts, row) ->
  meter !! t = Some m ->
  is_online inverters meter low_limit !! t = Some mask_row ->
  mask_row !! j = Some false ->
  fillna 0 row !! j = Some x ->
  threshold
    (resolve_low_limit (columns inverters)
       (frame_fillna 0 (values inverters)) low_limit) j = Some lim ->
  (x >? lim) = false.
Proof.
  intros Hrow Hm Hmask Hj Hx Hlim.
  pose proof (lookup_frame_fillna _ _ _ (lookup_values _ _ _ _ Hrow)) as Hrow'.
  pose proof (lookup_fillna 0 _ _ _ Hm) as Hm'.
  unfold is_online in Hmask.
  rewrite (lookup_online_mask _ _ _ _ t _ _ Hrow' Hm' _ ts
             (lookup_index _ _ _ _ Hrow)) in Hmask.
  injection Hmask as <-. cbn zeta in Hj.
  destruct (forallb id (compare_row Num.ltb _ _) && _) eqn:Hsite.
  - apply andb_true_iff in Hsite as [Hall _].
    apply ltb_not_gtb.
    exact (forallb_lookup _ j _ Hall (lookup_compare_row _ _ _ _ _ _ Hx Hlim)).
  - destruct (negb _ && _).
    + rewrite (lookup_compare_row _ _ _ _ _ _ Hx Hlim) in Hj. by injection Hj.
    + by apply lookup_replicate in Hj as [? _].
Qed.

(** X3. At a timestamp where every inverter reads below its threshold and
    the meter reads below [np.sum(low_limit)] (the sum of a series of
    thresholds, a float threshold itself), every inverter is marked
    offline. *)
Theorem is_online_site_offline (inverters : DataFrame) (meter : Series)
    (low_limit : option LowLimit) (t : nat) ts row m :
  rows inverters !! t = Some (ts, row) ->
  meter !! t = Some m ->
  readings Num.ltb
    (resolve_low_limit (columns inverters)
       (frame_fillna 0 (values inverters)) low_limit)
    (fillna 0 row) ->
  (fill0 m <?
   np_sum (resolve_low_limit (columns inverters)
             (frame_fillna 0 (values inverters)) low_limit)) = true ->
  exists mask_row,
    is_online inverters meter low_limit !! t = Some mask_row /\
    Forall (fun b => b = false) mask_row.
Proof.
  intros Hrow Hm Hbelow Hmeter.
  pose proof (lookup_frame_fillna _ _ _ (lookup_values _ _ _ _ Hrow)) as Hrow'.
  pose proof (lookup_fillna 0 _ _ _ Hm) as Hm'.
  unfold is_online.
  apply (online_mask_site_offline _ _ _ _ _ t _ _ ts Hrow' Hm'
           (lookup_index _ _ _ _ Hrow)).
  rewrite (lookup_site_offline _ _ _ t _ _ Hrow' Hm').
  rewrite (forallb_compare_row _ _ _ Hbelow).
  unfold fill0 in Hmeter. by rewrite Hmeter.
Qed.

(** ** Positive values stay positive through the reductions *)

Lemma Qcdiv_pos (a b : Qc) : (0 < a -> 0 < b -> 0 < a / b)%Qc.
Proof.
  intros Ha Hb. unfold Qcdiv, Qcmult, Qcinv, Qclt, Q2Qc in *.
  cbn [this] in *. rewrite !Qred_correct.
  apply Qmult_lt_0_compat; [done|]. by apply Qinv_lt_0_compat.
Qed.

Lemma pos_or_nan_Fin (x : num) :
  pos_or_nan x = true -> Num.isnan x = false ->
  exists q, x = Fin q /\ (0 < q)%Qc.
Proof.
  destruct x as [| | |q]; try done. cbn. intros H%bool_decide_eq_true _.
  by exists q.
Qed.

Lemma sum_positive (l : list num) :
  Forall (fun x => pos_or_nan x = true) l ->
  exists S, nansum l = Fin S /\ (0 ≤ S)%Qc /\
    (dropna l <> [] -> (0 < S)%Qc).
Proof.
  unfold nansum, dropna. induction 1 as [|x l Hx _ IH].
  - exists 0%Qc. repeat split; done.
  - destruct IH as (S & HS & Hnonneg & Hpos).
    destruct (Num.isnan x) eqn:Hnan.
    + rewrite filter_cons_False by (by rewrite Hnan). by exists S.
    + rewrite filter_cons_True by done.
      destruct (pos_or_nan_Fin x Hx Hnan) as (q & -> & Hq).
      cbn [foldr]. rewrite HS. cbn [Num.add].
      exists (q + S)%Qc. repeat split; [qc_solve|intros _; qc_solve].
Qed.

Lemma pos_nanmean (l : list num) :
  Forall (fun x => pos_or_nan x = true) l -> pos_or_nan (nanmean l) = true.
Proof.
  intros Hl. destruct (sum_positive l Hl) as (S & HS & _ & Hpos).
  unfold nanmean, nansum in *.
  destruct (dropna l) as [|x rest] eqn:E; [done|].
  rewrite HS. cbn [Num.div Num.of_nat Num.of_Z length].
  pose proof (Qc_of_nat_S_pos (length rest)) as Hk.
  rewrite bool_decide_eq_false_2.
  - cbn. apply bool_decide_eq_true. apply Qcdiv_pos; [by apply Hpos|done].
  - intros E'. rewrite E' in Hk. by apply Qclt_not_eq in Hk.
Qed.

Lemma elem_of_insert_sorted (x y : num) (l : list num) :
  y ∈ insert_sorted x l -> y = x \/ y ∈ l.
Proof.
  induction l as [|z l IH]; cbn.
  - intros ->%list_elem_of_singleton. by left.
  - destruct (x <=? z).
    + intros [->|?]%elem_of_cons; [by left|by right].
    + intros [->|Hin]%elem_of_cons; [right; by left|].
      destruct (IH Hin) as [->|?]; [by left|right; by right].
Qed.

Lemma elem_of_sort (y : num) (l : list num) : y ∈ sort l -> y ∈ l.
Proof.
  unfold sort. induction l as [|x l IH]; cbn; [done|].
  intros [->|Hin]%elem_of_insert_sorted; [by left|right; by apply IH].
Qed.

Lemma pos_nth (l : list num) (i : nat) :
  Forall (fun x => pos_or_nan x = true) l -> pos_or_nan (nth i l NaN) = true.
Proof.
  intros Hl. rewrite nth_lookup. destruct (l !! i) as [x|] eqn:E; [|done].
  exact (proj1 (Forall_lookup _ _) Hl i x E).
Qed.

Lemma pos_dropna (l : list num) :
  Forall (fun x => pos_or_nan x = true) l ->
  Forall (fun x => pos_or_nan x = true) (dropna l).
Proof.
  intros Hl. apply Forall_forall. intros x [_ Hin]%list_elem_of_filter.
  exact (proj1 (Forall_forall _ _) Hl x Hin).
Qed.

Lemma pos_sort (l : list num) :
  Forall (fun x => pos_or_nan x = true) l ->
  Forall (fun x => pos_or_nan x = true) (sort l).
Proof.
  intros Hl. apply Forall_forall. intros x Hin%elem_of_sort.
  exact (proj1 (Forall_forall _ _) Hl x Hin).
Qed.

Lemma pos_half_sum (a b : num) :
  pos_or_nan a = true -> pos_or_nan b = true ->
  pos_or_nan ((a + b) / Num.of_nat 2) = true.
Proof.
  destruct a as [| | |p], b as [| | |q]; try done. cbn.
  intros Hp%bool_decide_eq_true Hq%bool_decide_eq_true.
  pose proof (Qc_of_nat_S_pos 1) as Hk.
  rewrite bool_decide_eq_false_2.
  - cbn. apply bool_decide_eq_true. apply Qcdiv_pos; [qc_solve|done].
  - intros E'. rewrite E' in Hk. by apply Qclt_not_eq in Hk.
Qed.

Lemma pos_nanmedian (l : list num) :
  Forall (fun x => pos_or_nan x = true) l -> pos_or_nan (nanmedian l) = true.
Proof.
  intros Hl. unfold nanmedian.
  pose proof (pos_sort _ (pos_dropna _ Hl)) as Hs.
  case_bool_decide; [done|].
  destruct (Nat.even _); [|by apply pos_nth].
  apply pos_half_sum; by apply pos_nth.
Qed.

Lemma pos_div (x y : num) :
  pos_or_nan x = true -> pos_or_nan y = true -> pos_or_nan (x / y) = true.
Proof.
  destruct x as [| | |p], y as [| | |q]; try done. cbn.
  intros Hp%bool_decide_eq_true Hq%bool_decide_eq_true.
  rewrite bool_decide_eq_false_2.
  - cbn. apply bool_decide_eq_true. by apply Qcdiv_pos.
  - intros ->. by apply Qclt_not_eq in Hq.
Qed.

Lemma pos_nanmin (l : list num) :
  Forall (fun x => pos_or_nan x = true) l -> pos_or_nan (nanmin l) = true.
Proof.
  intros Hl%pos_dropna. unfold nanmin.
  destruct (dropna l) as [|x rest]; [done|].
  apply Forall_cons in Hl as [Hx Hrest].
  induction Hrest as [|y rest Hy _ IH]; [done|].
  cbn [foldr]. by destruct (_ <? _).
Qed.

Lemma pos_normalized (rs : list num) :
  Forall (fun x => pos_or_nan x = true) rs ->
  Forall (fun x => pos_or_nan x = true) (map (fun r => r / nansum rs) rs).
Proof.
  intros Hrs. destruct (sum_positive rs Hrs) as (S & HS & _ & Hpos).
  rewrite HS. apply Forall_forall. intros y Hy.
  change (map ?f rs) with (f <$> rs) in Hy.
  apply list_elem_of_fmap in Hy as (r & -> & Hr).
  pose proof (proj1 (Forall_forall _ _) Hrs r Hr) as Hpr.
  destruct (Num.isnan r) eqn:Hnan; [by destruct r|].
  apply pos_div; [done|]. cbn. apply bool_decide_eq_true. apply Hpos.
  intros E. eapply (filter_nil_not_elem_of _ _ r); [exact E|done|done].
Qed.

Lemma pos_reporting_cell (x lim : num) :
  Num.is_finite x = true -> (lim <? 0) = false ->
  pos_or_nan (if x >? lim then x else NaN) = true.
Proof.
  intros Hx Hlim. destruct (x >? lim) eqn:Hgt; [|done].
  num_cases; cbn; apply bool_decide_eq_true; qc_solve.
Qed.

Lemma pos_reporting_row (row : list num) (l : LowLimit) :
  Forall (fun x => Num.is_finite x = true) row ->
  no_negative_threshold l ->
  Forall (fun x => pos_or_nan x = true)
    (zip_with (fun x (b : bool) => if b then x else NaN)
       row (compare_row Num.gtb row l)).
Proof.
  intros Hrow Hl. destruct l as [lim|s]; cbn [compare_row no_negative_threshold] in *.
  - induction Hrow as [|x row Hx _ IH]; cbn; constructor; [|done].
    by apply pos_reporting_cell.
  - revert s Hl. induction Hrow as [|x row Hx _ IH]; intros [|lim s] Hl;
      cbn; try constructor.
    + apply Forall_cons in Hl as [Hlim _]. by apply pos_reporting_cell.
    + apply Forall_cons in Hl as [_ Hs]. by apply IH.
Qed.

Section Positive.

Variable n_inv : nat.
Variable inverters : Frame.
Variable low_limit : LowLimit.
Hypothesis Hfinite : finite_readings inverters.
Hypothesis Hlimit : no_negative_threshold low_limit.

Lemma pos_reporting :
  Forall (Forall (fun x => pos_or_nan x = true)) (reporting inverters low_limit).
Proof.
  apply Forall_lookup. intros t cells Ht.
  destruct (inverters !! t) as [row|] eqn:Hrow.
  - rewrite (lookup_reporting _ _ t _ Hrow) in Ht. injection Ht as <-.
    apply pos_reporting_row; [|done].
    exact (proj1 (Forall_lookup _ _) Hfinite t row Hrow).
  - unfold reporting, where_ in Ht. by rewrite lookup_zip_with, Hrow in Ht.
Qed.

Lemma pos_relative_sizing :
  Forall (fun x => pos_or_nan x = true)
    (relative_sizing n_inv inverters low_limit).
Proof.
  unfold relative_sizing, reduce_columns. apply Forall_forall. intros y Hy.
  change (map ?f ?l) with (f <$> l) in Hy.
  apply list_elem_of_fmap in Hy as (j & -> & _).
  apply pos_nanmedian. unfold column. apply Forall_forall. intros c Hc.
  change (map ?f ?l) with (f <$> l) in Hc.
  apply list_elem_of_fmap in Hc as (cells & -> & Hcells).
  apply pos_nth. unfold div_axis0 in Hcells.
  apply list_elem_of_lookup in Hcells as (t & Ht).
  apply lookup_zip_with_Some in Ht as (row & d & -> & Hrow & Hd).
  apply Forall_forall. intros z Hz.
  change (map ?f ?l) with (f <$> l) in Hz.
  apply list_elem_of_fmap in Hz as (x & -> & Hx).
  apply pos_div.
  - exact (proj1 (Forall_forall _ _)
             (proj1 (Forall_lookup _ _) pos_reporting t row Hrow) x Hx).
  - unfold mean_reporting_power in Hd. rewrite lookup_map, Hrow in Hd.
    injection Hd as <-. apply pos_nanmean.
    exact (proj1 (Forall_lookup _ _) pos_reporting t row Hrow).
Qed.

Lemma pos_inverter_fraction :
  Forall (fun x => pos_or_nan x = true)
    (inverter_fraction n_inv inverters low_limit).
Proof. apply pos_normalized, pos_relative_sizing. Qed.

(** [smallest_delta] is finite and positive at every timestamp. *)
Lemma pos_smallest_delta (t : nat) (s : num) :
  smallest_delta n_inv inverters low_limit !! t = Some s ->
  exists q, s = Fin q /\ (0 < q)%Qc.
Proof.
  intros Hs. destruct (inverters !! t) as [row|] eqn:Hrow; cycle 1.
  { unfold smallest_delta, fillna, mul_axis1, replace_false_nan,
      compare_limit in Hs.
    by rewrite !lookup_map, Hrow in Hs. }
  rewrite (lookup_smallest_delta n_inv _ _ t _ Hrow) in Hs.
  injection Hs as <-.
  set (products := zip_with Num.mul _ _).
  assert (Forall (fun x => pos_or_nan x = true) products) as Hprod.
  { apply Forall_lookup. intros j y Hj.
    apply lookup_zip_with_Some in Hj as (b & fr & -> & Hb & Hfr).
    rewrite lookup_map in Hb.
    destruct (compare_row Num.leb row low_limit !! j) as [[|]|];
      cbn in Hb; try done; injection Hb as <-.
    - rewrite mul_one_l.
      exact (proj1 (Forall_lookup _ _) pos_inverter_fraction j fr Hfr).
    - by destruct fr. }
  pose proof (pos_nanmin _ Hprod) as Hmin.
  unfold fill1. destruct (Num.isnan (nanmin products)) eqn:Hnan.
  - exists 1%Qc. split; [done|]. qc_solve.
  - by apply pos_or_nan_Fin.
Qed.

End Positive.

Lemma finite_filled (inverters : DataFrame) :
  no_infinite_reading inverters ->
  finite_readings (frame_fillna 0 (values inverters)).
Proof.
  intros Hrows. unfold finite_readings, frame_fillna, values.
  apply Forall_forall. intros filled Hf.
  change (map ?f (map ?g ?l)) with (f <$> (g <$> l)) in Hf.
  apply list_elem_of_fmap in Hf as (row & -> & Hrow).
  apply list_elem_of_fmap in Hrow as (r & -> & Hr).
  pose proof (proj1 (Forall_forall _ _) Hrows r Hr) as Hfin.
  unfold fillna. apply Forall_forall. intros y Hy.
  change (map ?f ?l) with (f <$> l) in Hy.
  apply list_elem_of_fmap in Hy as (x & -> & Hx).
  exact (proj1 (Forall_forall _ _) Hfin x Hx).
Qed.


(** ** The default threshold *)

Lemma nonneg_nth (l : list num) (i : nat) :
  Forall (fun x => nonneg_or_nan x = true) l ->
  nonneg_or_nan (nth i l NaN) = true.
Proof.
  intros Hl. rewrite nth_lookup. destruct (l !! i) as [x|] eqn:E; [|done].
  exact (proj1 (Forall_lookup _ _) Hl i x E).
Qed.

Lemma nonneg_sort_dropna (l : list num) :
  Forall (fun x => nonneg_or_nan x = true) l ->
  Forall (fun x => nonneg_or_nan x = true) (sort (dropna l)).
Proof.
  intros Hl. apply Forall_forall.
  intros x [_ Hin]%elem_of_sort%list_elem_of_filter.
  exact (proj1 (Forall_forall _ _) Hl x Hin).
Qed.

Lemma Qcmult_nonneg (a b : Qc) : (0 ≤ a -> 0 ≤ b -> 0 ≤ a * b)%Qc.
Proof.
  intros Ha Hb.
  assert (0 <= this a)%Q as Ha' by (clear Hb; qc2q; lra).
  assert (0 <= this b)%Q as Hb' by (clear Ha; qc2q; lra).
  pose proof (Qmult_le_0_compat _ _ Ha' Hb') as Hab.
  clear Ha Hb. qc2q. lra.
Qed.

(** The interpolation weight of [quantile] lies between 0 and 1. *)
Lemma quantile_weight (q : Qc) (k : nat) :
  (0 ≤ q)%Qc ->
  let pos := (q * Qc_of_Z (Z.of_nat k))%Qc in
  let gamma := (pos - Qc_of_Z (Z.of_nat (Num.floor_nat pos)))%Qc in
  (0 ≤ gamma ∧ gamma ≤ 1)%Qc.
Proof.
  intros Hq pos gamma.
  assert (0 ≤ pos)%Qc as Hpos.
  { subst pos. apply Qcmult_nonneg; [done|].
    rewrite <- Z2Qc_inj_0. apply (proj1 (Z2Qc_inj_le 0 (Z.of_nat k))). lia. }
  assert (0 <= Qfloor pos)%Z as Hfloor.
  { change 0%Z with (Qfloor 0). by apply Qfloor_resp_le. }
  subst gamma. unfold Num.floor_nat. rewrite Z2Nat.id by done.
  pose proof (Qfloor_le pos) as Hle. pose proof (Qlt_floor pos) as Hlt.
  rewrite inject_Z_plus in Hlt.
  unfold Qcle, Qcminus, Qcplus, Qcopp, Q2Qc, Qc_of_Z. cbn [this].
  rewrite !Qred_correct. change (inject_Z 1) with 1%Q in Hlt. split; lra.
Qed.

Lemma nonneg_interpolate (a b : num) (gamma : Qc) :
  nonneg_or_nan a = true -> nonneg_or_nan b = true ->
  (0 ≤ gamma ∧ gamma ≤ 1)%Qc ->
  nonneg_or_nan (a + (b - a) * Fin gamma) = true.
Proof.
  destruct a as [| | |p], b as [| | |r]; try done. cbn.
  intros Hp%bool_decide_eq_true Hr%bool_decide_eq_true [Hg0 Hg1].
  apply bool_decide_eq_true.
  assert ((p + (r + - p) * gamma)%Qc = (p * (1 - gamma) + r * gamma)%Qc)
    as -> by ring.
  assert (0 ≤ 1 - gamma)%Qc by qc_solve.
  pose proof (Qcmult_nonneg _ _ Hp H).
  pose proof (Qcmult_nonneg _ _ Hr Hg0).
  qc_solve.
Qed.

Lemma nonneg_quantile (s : list num) :
  Forall (fun x => nonneg_or_nan x = true) s ->
  nonneg_or_nan (quantile (Q2Qc (99 # 100)) s) = true.
Proof.
  intros Hs%nonneg_sort_dropna. unfold quantile.
  case_bool_decide; [done|].
  apply nonneg_interpolate; [by apply nonneg_nth|by apply nonneg_nth|].
  apply quantile_weight. apply (bool_decide_unpack _). vm_compute. exact I.
Qed.

Lemma nonneg_hundredth (x : num) :
  nonneg_or_nan x = true -> (Num.of_Q (1 # 100) * x <? 0) = false.
Proof.
  destruct x as [| | |q]; try done. cbn. intros Hq%bool_decide_eq_true.
  apply bool_decide_eq_false.
  assert (0 ≤ Q2Qc (1 # 100))%Qc as H100
    by (apply (bool_decide_unpack _); vm_compute; exact I).
  pose proof (Qcmult_nonneg _ _ H100 Hq). qc_solve.
Qed.

Lemma default_low_limit_nonneg (n_inv : nat) (inverters : Frame) :
  Forall (Forall (fun x => nonneg_or_nan x = true)) inverters ->
  no_negative_threshold (default_low_limit n_inv inverters).
Proof.
  intros Hinv. unfold default_low_limit. cbn [no_negative_threshold].
  apply Forall_forall. intros y Hy.
  change (map ?f ?l) with (f <$> l) in Hy.
  apply list_elem_of_fmap in Hy as (x & -> & Hx).
  apply nonneg_hundredth.
  unfold reduce_columns in Hx. change (map ?f ?l) with (f <$> l) in Hx.
  apply list_elem_of_fmap in Hx as (j & -> & _).
  apply nonneg_quantile. unfold column. apply Forall_forall. intros c Hc.
  change (map ?f ?l) with (f <$> l) in Hc.
  apply list_elem_of_fmap in Hc as (row & -> & Hrow).
  apply nonneg_nth. exact (proj1 (Forall_forall _ _) Hinv row Hrow).
Qed.

Lemma nonneg_fillna (row : list num) :
  Forall (fun x => nonneg_or_nan x = true) row ->
  Forall (fun x => nonneg_or_nan x = true) (fillna 0 row).
Proof.
  intros Hrow. unfold fillna. apply Forall_forall. intros y Hy.
  change (map ?f ?l) with (f <$> l) in Hy.
  apply list_elem_of_fmap in Hy as (x & -> & Hx).
  pose proof (proj1 (Forall_forall _ _) Hrow x Hx). by destruct x.
Qed.

(** X5. With [low_limit] left out, no inverter gets a negative threshold
    when no reading is negative or infinite:
    [0.01 * inverters.quantile(0.99)] is missing or at least 0 in every
    column. *)
Theorem default_low_limit_not_negative (inverters : DataFrame) :
  Forall (fun r : Timestamp * list num =>
            Forall (fun x => nonneg_or_nan x = true) r.2)
    (rows inverters) ->
  no_negative_threshold
    (resolve_low_limit (columns inverters)
       (frame_fillna 0 (values inverters)) None).
Proof.
  intros Hrows. cbn [resolve_low_limit]. apply default_low_limit_nonneg.
  unfold frame_fillna, values. apply Forall_forall. intros filled Hf.
  change (map ?f (map ?g ?l)) with (f <$> (g <$> l)) in Hf.
  apply list_elem_of_fmap in Hf as (row & -> & Hrow).
  apply list_elem_of_fmap in Hrow as (r & -> & Hr).
  apply nonneg_fillna. exact (proj1 (Forall_forall _ _) Hrows r Hr).
Qed.

(** ** The shares of downtime_loss *)

Lemma nansum_cons_nan (x : num) (l : list num) :
  Num.isnan x = true -> nansum (x :: l) = nansum l.
Proof.
  intros Hx. unfold nansum, dropna.
  by rewrite filter_cons_False by (by rewrite Hx).
Qed.

Lemma nansum_cons (x : num) (l : list num) :
  Num.isnan x = false -> nansum (x :: l) = x + nansum l.
Proof.
  intros Hx. unfold nansum, dropna. by rewrite filter_cons_True.
Qed.

(** ** Full availability and total outage *)

Lemma nansum_all_offline (mask_row : list bool) (shares : list num) :
  Forall (fun b => b = false) mask_row ->
  nansum (zip_with Num.mul (map Num.of_bool mask_row) shares) = 0.
Proof.
  intros Hrow. revert shares.
  induction Hrow as [|b mask_row -> _ IH]; intros [|s shares]; try done.
  cbn [map zip_with Num.of_bool].
  destruct s as [| | |q].
  - rewrite nansum_cons_nan by done. apply IH.
  - rewrite nansum_cons_nan by (vm_compute; reflexivity). apply IH.
  - rewrite nansum_cons_nan by (vm_compute; reflexivity). apply IH.
  - rewrite nansum_cons by done. rewrite IH.
    unfold Num.zero. cbn [Num.mul Num.add]. apply (f_equal Fin). ring.
Qed.

Lemma lost_before_limit_full (m e y : num) (d : bool) :
  Num.is_finite m = true -> lost_before_limit m 1 e y d = 0.
Proof.
  intros Hm. unfold lost_before_limit.
  assert ((1 =? 0) = false) as -> by (vm_compute; reflexivity).
  cbn [andb]. destruct d; [|done].
  destruct m as [| | |q]; try done.
  assert (Fin q / 1 - Fin q = 0) as ->.
  { unfold Num.one, Num.zero, Num.sub. cbn [Num.div].
    rewrite bool_decide_eq_false_2 by (by apply (bool_decide_unpack _)).
    cbn. f_equal. field. by apply (bool_decide_unpack _). }
  apply (bool_decide_unpack _). vm_compute. exact I.
Qed.


(** X8. Total outage: at a daylight timestamp where the mask marks every
    inverter offline, and without a system limit (none, or 0), lost power is
    the expected power when that is positive, and otherwise the profile entry
    for the hour and month of the timestamp (missing when the profile has no
    such entry). *)
Theorem downtime_loss_total_outage (inverters : DataFrame) (meter : Series)
    (online_mask : Mask) (expected_power : Series)
    (production_profile : Profile) (is_daylight : list bool)
    (system_limit : option num) (t : nat) ts row m mask_row e :
  profile_wf production_profile ->
  rows inverters !! t = Some (ts, row) ->
  meter !! t = Some m ->
  online_mask !! t = Some mask_row ->
  Forall (fun b => b = false) mask_row ->
  expected_power !! t = Some e ->
  is_daylight !! t = Some true ->
  truthy system_limit = false ->
  exists lost,
    downtime_loss inverters meter online_mask expected_power
      production_profile is_daylight system_limit = Some lost /\
    lost !! t
    = Some (if fill0 e >? 0 then fill0 e
            else profile_get production_profile (hour ts) (month ts)).
Proof.
  intros Hwf Hrow Hm Hmask Hoff He Hd Hfalsy.
  destruct (downtime_loss_at inverters meter online_mask expected_power
              production_profile is_daylight system_limit _ t ts row m _
              e true (profile_to_signal_wf _ _ Hwf) Hrow Hm Hmask He Hd)
    as (lost & f & y & Hlost & Hf & Hy & Hv).
  pose proof (lookup_frame_fillna _ _ _ (lookup_values _ _ _ _ Hrow)) as Hrow'.
  pose proof (lookup_fillna 0 _ _ _ Hm) as Hm'.
  rewrite lookup_map, (lookup_index _ _ _ _ Hrow) in Hy. injection Hy as <-.
  rewrite (lookup_online_fraction _ _ _ _ t _ _ _ Hrow' Hm' Hmask) in Hf.
  rewrite (nansum_all_offline _ _ Hoff) in Hf. cbv zeta in Hf.
  assert ((0 =? 0) = true) as Hzero by (vm_compute; reflexivity).
  rewrite Hzero in Hf.
  assert (clip None (Some 1) (0 * 1) = 0) as Hclip
    by (apply (bool_decide_unpack _); vm_compute; exact I).
  rewrite Hclip in Hf. injection Hf as <-.
  exists lost. split; [done|]. rewrite Hv.
  unfold with_limit. destruct system_limit as [limit|].
  - rewrite Hfalsy. unfold lost_before_limit. by rewrite Hzero.
  - unfold lost_before_limit. by rewrite Hzero.
Qed.

(** ** When profile_to_signal raises *)

Lemma length_merge_left (aux : list (Z * Z)) (table : list (Z * Z * num)) :
  (length aux <= length (merge_left aux table))%nat /\
  (length (merge_left aux table) = length aux <->
   Forall (fun k => (length (filter (fun r : Z * Z * num => r.1 = k) table)
                     <= 1)%nat) aux).
Proof.
  unfold merge_left. induction aux as [|k aux [IHle IHeq]].
  - cbn. split; [lia|]. split; [constructor|done].
  - cbn [flat_map]. rewrite length_app, Forall_cons, <- IHeq. cbn [length].
    set (rest := length (flat_map _ aux)) in *. clearbody rest.
    destruct (filter (fun r : Z * Z * num => r.1 = k) table)
      as [|c [|c' cells]]; cbn [length map]; lia.
Qed.

(** X9. [profile_to_signal] raises whenever the hour and month of some
    timestamp of the time axis match two or more cells of the profile, as
    they do when the profile repeats a label. *)
Theorem profile_to_signal_raises (profile : Profile)
    (times : list Timestamp) :
  Exists (fun ts => (2 <= length (matching_cells profile ts))%nat) times ->
  profile_to_signal profile times = None.
Proof.
  unfold profile_to_signal, matching_cells. intros Hex.
  destruct (length_merge_left (map (fun t => (hour t, month t)) times)
              (melt profile)) as [_ Heq].
  rewrite length_map in Heq.
  case_bool_decide as Hlen; [|done]. exfalso. apply Heq in Hlen.
  apply Exists_exists in Hex as (ts & Hin & Htwo).
  change (map ?f times) with (f <$> times) in Hlen.
  rewrite Forall_fmap in Hlen.
  pose proof (proj1 (Forall_forall _ _) Hlen ts Hin) as Hle. cbn in Hle. lia.
Qed.

(** ** The table that signal_to_profile returns *)

Lemma insert_label_sorted (x : Z) (l : list Z) :
  StronglySorted Z.lt l -> StronglySorted Z.lt (insert_label x l).
Proof.
  induction 1 as [|y l Hl IH Hy]; cbn [insert_label].
  - repeat constructor.
  - repeat case_bool_decide.
    + constructor; [by constructor|]. constructor; [done|].
      eapply Forall_impl; [exact Hy|]. intros z Hz. cbn in *. lia.
    + by constructor.
    + constructor; [done|]. apply Forall_forall.
      intros z [->|Hz]%elem_of_insert_label; [lia|].
      exact (proj1 (Forall_forall _ _) Hy z Hz).
Qed.

Lemma sorted_labels_sorted (l : list Z) :
  StronglySorted Z.lt (sorted_labels l).
Proof.
  unfold sorted_labels. induction l as [|x l IH]; cbn [foldr].
  - constructor.
  - by apply insert_label_sorted.
Qed.

Lemma sorted_NoDup (l : list Z) : StronglySorted Z.lt l -> NoDup l.
Proof.
  induction 1 as [|x l _ IH Hx]; [constructor|].
  apply NoDup_cons. split; [|done]. intros Hin.
  pose proof (proj1 (Forall_forall _ _) Hx x Hin). lia.
Qed.

Lemma signal_to_profile_hours signal :
  map fst (profile_rows (signal_to_profile signal))
  = sorted_labels
      (map fst
         (filter (fun k : Z * Z =>
                    Num.isnan (group_mean signal k.1 k.2) = false)
            (map (fun e : Timestamp * num => (hour e.1, month e.1)) signal))).
Proof.
  unfold signal_to_profile. cbn [profile_rows].
  rewrite map_map. cbn [fst]. apply map_id.
Qed.

Lemma signal_to_profile_wf signal : profile_wf (signal_to_profile signal).
Proof.
  split.
  - apply sorted_NoDup. unfold signal_to_profile. cbn [profile_months].
    apply sorted_labels_sorted.
  - apply sorted_NoDup. rewrite signal_to_profile_hours.
    apply sorted_labels_sorted.
Qed.

(** X10. The table that [signal_to_profile] returns has strictly increasing
    month labels, strictly increasing hour labels, and one cell per month in
    every row. *)
Theorem signal_to_profile_shape (signal : list (Timestamp * num)) :
  StronglySorted Z.lt (profile_months (signal_to_profile signal)) /\
  StronglySorted Z.lt (map fst (profile_rows (signal_to_profile signal))) /\
  Forall (fun r : Z * list num =>
            length r.2 = length (profile_months (signal_to_profile signal)))
    (profile_rows (signal_to_profile signal)).
Proof.
  split; [|split].
  - unfold signal_to_profile. cbn [profile_months]. apply sorted_labels_sorted.
  - rewrite signal_to_profile_hours. apply sorted_labels_sorted.
  - unfold signal_to_profile. cbn [profile_months profile_rows].
    apply Forall_forall. intros r Hr.
    change (map ?f ?l) with (f <$> l) in Hr.
    apply list_elem_of_fmap in Hr as (h & -> & _). cbn [snd].
    by rewrite length_map.
Qed.

(** X11. [profile_to_signal] never raises on the table that
    [signal_to_profile] makes of a signal with at least one value that is not
    missing: it returns, at every timestamp, the mean of the signal values
    that share the hour and month of that timestamp. *)
Theorem profile_to_signal_of_signal_to_profile
    (signal : list (Timestamp * num)) (times : list Timestamp) :
  Exists (fun e : Timestamp * num => Num.isnan e.2 = false) signal ->
  profile_to_signal (signal_to_profile signal) times
  = Some (map (fun t => group_mean signal (hour t) (month t)) times).
Proof.
  intros _. rewrite (profile_to_signal_wf _ _ (signal_to_profile_wf signal)).
  f_equal. apply map_ext. intros t. apply signal_to_profile_get.
Qed.

Lemma elem_of_groups signal (h m : Z) :
  (h, m) ∈ filter (fun k : Z * Z =>
                     Num.isnan (group_mean signal k.1 k.2) = false)
             (map (fun e : Timestamp * num => (hour e.1, month e.1)) signal)
  <-> Num.isnan (group_mean signal h m) = false.
Proof.
  rewrite list_elem_of_filter. cbn [fst snd]. split; [by intros [? _]|].
  intros Hdef. split; [done|]. by apply group_mean_defined.
Qed.

(** X12. An entry of the table of [signal_to_profile] is the mean of the
    values of its (hour, month) group, missing when the table has no such
    entry; an hour, or a month, is a label of the table exactly when one of
    its groups has a mean. *)
Theorem signal_to_profile_entries (signal : list (Timestamp * num))
    (h m : Z) :
  profile_get (signal_to_profile signal) h m = group_mean signal h m /\
  (h ∈ map fst (profile_rows (signal_to_profile signal)) <->
   exists m', Num.isnan (group_mean signal h m') = false) /\
  (m ∈ profile_months (signal_to_profile signal) <->
   exists h', Num.isnan (group_mean signal h' m) = false).
Proof.
  split; [apply signal_to_profile_get|]. split.
  - rewrite signal_to_profile_hours, elem_of_sorted_labels.
    change (map fst ?l) with (fst <$> l). rewrite list_elem_of_fmap. split.
    + intros ([h' m'] & -> & Hin). exists m'. by apply elem_of_groups.
    + intros (m' & Hdef). exists (h, m'). split; [done|].
      by apply elem_of_groups.
  - unfold signal_to_profile. cbn [profile_months].
    rewrite elem_of_sorted_labels.
    change (map snd ?l) with (snd <$> l). rewrite list_elem_of_fmap. split.
    + intros ([h' m'] & -> & Hin). exists h'. by apply elem_of_groups.
    + intros (h' & Hdef). exists (h', m). split; [done|].
      by apply elem_of_groups.
Qed.

(** ** The series that downtime_loss returns *)

Lemma length_lost_power (n_inv : nat) (inverters : Frame) (meter : Series)
    (online_mask : Mask) (expected_power typical_power : Series)
    (is_daylight : list bool) (n : nat) :
  length inverters = n -> length meter = n -> length online_mask = n ->
  length expected_power = n -> length typical_power = n ->
  length is_daylight = n ->
  length (lost_power n_inv inverters meter online_mask expected_power
            typical_power is_daylight) = n.
Proof.
  intros. unfold lost_power, setitem_where, zip_with3, setitem_scalar,
    estimated_full_power, replacement_power, online_fraction,
    communications_factor, setitem_scalar, online_fraction_uncorrected,
    inv_sum, mul_axis1, mask_values.
  repeat (rewrite ?length_zip_with, ?length_map). lia.
Qed.

(** X13. With all series as long as the time axis, the series that
    [downtime_loss] returns has one value per timestamp, with or without a
    system limit. *)
Theorem downtime_loss_length (inverters : DataFrame) (meter : Series)
    (online_mask : Mask) (expected_power : Series)
    (production_profile : Profile) (is_daylight : list bool)
    (system_limit : option num) (lost : Series) :
  length meter = length (rows inverters) ->
  length online_mask = length (rows inverters) ->
  length expected_power = length (rows inverters) ->
  length is_daylight = length (rows inverters) ->
  downtime_loss inverters meter online_mask expected_power
    production_profile is_daylight system_limit = Some lost ->
  length lost = length (rows inverters).
Proof.
  intros Hmeter Hmask Hexp Hday. unfold downtime_loss.
  destruct (profile_to_signal production_profile (index inverters))
    as [typical_power|] eqn:Hsignal; [|done].
  apply profile_to_signal_length in Hsignal.
  cbn [mbind option_bind]. intros [= <-].
  assert (length (lost_power (columns inverters)
                    (frame_fillna 0 (values inverters)) (fillna 0 meter)
                    online_mask (fillna 0 expected_power) typical_power
                    is_daylight) = length (rows inverters)) as Hlen.
  { apply length_lost_power; unfold frame_fillna, values, fillna;
      rewrite ?length_map; try done.
    rewrite Hsignal. unfold index. by rewrite length_map. }
  destruct system_limit as [limit|]; [|done].
  destruct (truthy (Some limit)); [|done].
  unfold limit_total_power.
  repeat (rewrite ?length_zip_with, ?length_map). rewrite Hlen.
  unfold fillna. rewrite length_map. lia.
Qed.

(** * Further properties on the sample plants *)

Section MoreSamples.

Import Examples.

Local Ltac by_compute := apply (bool_decide_unpack _); vm_compute; exact I.

(** X1 on the sample plant. *)
Lemma is_online_shape_witness :
  length (is_online plant plant_meter (Some (LimitFloat (kw 10))))
    = length (rows plant) /\
  Forall (fun mask_row : list bool => length mask_row = columns plant)
    (is_online plant plant_meter (Some (LimitFloat (kw 10)))).
Proof.
  apply (is_online_shape plant plant_meter (Some (LimitFloat (kw 10)))).
  - reflexivity.
  - repeat constructor.
  - exact I.
Defined.

(** X2 on the sample plant: the first inverter at one o'clock. *)
Lemma is_online_flags_only_below_witness : (kw 0 >? kw 10) = false.
Proof.
  apply (is_online_flags_only_below plant plant_meter
           (Some (LimitFloat (kw 10))) 1 0 one_pm [kw 0; kw 100; kw 100]
           (kw 200) [false; true; true] (kw 0) (kw 10)).
  - reflexivity.
  - reflexivity.
  - by_compute.
  - reflexivity.
  - by_compute.
  - reflexivity.
Defined.

(** X3 on the silent plant, thresholds of 10 and a meter reading of 15. *)
Lemma is_online_site_offline_witness :
  exists mask_row,
    is_online silent [kw 15]
      (Some (LimitSeries [kw 10; kw 10; kw 10])) !! 0%nat = Some mask_row /\
    Forall (fun b => b = false) mask_row.
Proof.
  apply (is_online_site_offline silent [kw 15]
           (Some (LimitSeries [kw 10; kw 10; kw 10])) 0 noon
           [kw 0; kw 0; kw 0] (kw 15)).
  - reflexivity.
  - reflexivity.
  - repeat constructor.
  - vm_compute. reflexivity.
Defined.


(** X5 on the sample plant. *)
Lemma default_low_limit_not_negative_witness :
  no_negative_threshold
    (resolve_low_limit (columns plant) (frame_fillna 0 (values plant)) None).
Proof.
  apply (default_low_limit_not_negative plant).
  repeat constructor.
Defined.


(** X8 on the idle single-inverter plant at noon in June. *)
Lemma downtime_loss_total_outage_witness :
  exists lost,
    downtime_loss single_idle [kw 0] [[false]] [kw 0] profile [true] None
      = Some lost /\
    lost !! 0%nat
    = Some (if fill0 (kw 0) >? 0 then fill0 (kw 0)
            else profile_get profile (hour noon) (month noon)).
Proof.
  apply (downtime_loss_total_outage single_idle [kw 0] [[false]] [kw 0]
           profile [true] None 0 noon [kw 0] (kw 0) [false] (kw 0)).
  - exact profile_wf_sample.
  - reflexivity.
  - reflexivity.
  - reflexivity.
  - repeat constructor.
  - reflexivity.
  - reflexivity.
  - reflexivity.
Defined.

(** X11 on a signal of three values. *)
Lemma profile_to_signal_of_signal_to_profile_witness :
  profile_to_signal
    (signal_to_profile [(noon, kw 250); (one_pm, kw 245); (noon, kw 260)])
    [one_pm; noon]
  = Some (map (fun t =>
                 group_mean [(noon, kw 250); (one_pm, kw 245); (noon, kw 260)]
                   (hour t) (month t))
              [one_pm; noon]).
Proof.
  apply (profile_to_signal_of_signal_to_profile
           [(noon, kw 250); (one_pm, kw 245); (noon, kw 260)] [one_pm; noon]).
  constructor. reflexivity.
Defined.

(** X9 on a profile that has noon twice, for a timestamp at noon in June. *)
Lemma profile_to_signal_raises_witness :
  profile_to_signal profile_repeated [noon] = None.
Proof.
  apply (profile_to_signal_raises profile_repeated [noon]).
  apply Exists_cons_hd. vm_compute. lia.
Defined.

(** X13 on the sample plant. *)
Lemma downtime_loss_length_witness :
  exists lost,
    downtime_loss plant plant_meter plant_mask [kw 0; kw 0] profile
      [true; true] (Some (kw 250)) = Some lost /\
    length lost = length (rows plant).
Proof.
  destruct (downtime_loss plant plant_meter plant_mask [kw 0; kw 0] profile
              [true; true] (Some (kw 250))) as [lost|] eqn:Hlost.
  - exists lost. split; [reflexivity|].
    apply (downtime_loss_length plant plant_meter plant_mask [kw 0; kw 0]
             profile [true; true] (Some (kw 250)) lost).
    + reflexivity.
    + by_compute.
    + reflexivity.
    + reflexivity.
    + exact Hlost.
  - exfalso. vm_compute in Hlost. discriminate Hlost.
Defined.

End MoreSamples.
